(** * A shallow embedding of the PDF to EPUB conversion services of EBookAI

    The development follows the Python modules under
    [backend/src/services/conversion/]:
    - [chapter_detector.py]   : [ChapterDetector] (module [ChapterDetector]);
    - [pdf_parser.py]         : [_calculate_scan_probability] (module [PdfParser]);
    - [epub_generator.py]     : [create_chapters_from_text_blocks] (module [EpubGenerator]);
    - [calibre_fallback.py]   : [should_trigger_fallback] (module [CalibreFallback]);
    - [conversion_pipeline.py]: [ConversionPipeline] (module [Pipeline]).

    Modelling choices.
    - Python [str] values are modelled as Rocq [string]s read as sequences of
      ASCII characters; [lower], [upper], [strip], [split] and the regular
      expression classes [\s] and [\d] follow Python's behaviour on ASCII
      characters.
    - Python floats (confidences, scores, probabilities) are modelled as
      exact rationals [Q]; the comparisons of the code are [Qlt_bool] and
      [Qle_bool].
    - Calls to external components (PyMuPDF, the OCR engine, the Calibre
      process, the EPUB writer) are inputs of the model: their possible
      outcomes, including an exception, are given as arguments. *)

From Stdlib Require Import Bool List String Ascii ZArith QArith Lia.
From Stdlib Require Import Sorting.Sorted Lqa.
Import ListNotations.

Open Scope Z_scope.

(** Python's [a < b] on floats, modelled on rationals. *)
Definition Qlt_bool (a b : Q) : bool := negb (Qle_bool b a).

(** ** Python string helpers on ASCII characters *)
Module Text.

(** Python's [str.isspace] on ASCII: tab, newline, vertical tab, form feed,
    carriage return, the separators 0x1c-0x1f, and space.  The regular
    expression class [\s] of a [str] pattern and [str.split()] with no
    argument use the same set. *)
Definition is_space (c : ascii) : bool :=
  let n := nat_of_ascii c in
  ((9 <=? n) && (n <=? 13))%nat || ((28 <=? n) && (n <=? 32))%nat.

(** [\d] and [str.isdigit] on ASCII. *)
Definition is_digit (c : ascii) : bool :=
  let n := nat_of_ascii c in ((48 <=? n) && (n <=? 57))%nat.

Definition lower_char (c : ascii) : ascii :=
  let n := nat_of_ascii c in
  if ((65 <=? n) && (n <=? 90))%nat then ascii_of_nat (n + 32) else c.

Definition upper_char (c : ascii) : ascii :=
  let n := nat_of_ascii c in
  if ((97 <=? n) && (n <=? 122))%nat then ascii_of_nat (n - 32) else c.

Definition chars (s : string) : list ascii := list_ascii_of_string s.
Definition of_chars (l : list ascii) : string := string_of_list_ascii l.

(** [s.lower()] *)
Definition lower (s : string) : string := of_chars (map lower_char (chars s)).

Fixpoint drop_while (p : ascii -> bool) (l : list ascii) : list ascii :=
  match l with
  | [] => []
  | c :: r => if p c then drop_while p r else l
  end.

(** [s.strip(chars)] for the set of characters [p]. *)
Definition strip_by (p : ascii -> bool) (s : string) : string :=
  of_chars (rev (drop_while p (rev (drop_while p (chars s))))).

(** [s.strip()] *)
Definition strip (s : string) : string := strip_by is_space s.

(** [s.split()]: the maximal runs of non-space characters. *)
Fixpoint split_go (cur : list ascii) (l : list ascii) : list string :=
  match l with
  | [] => match cur with [] => [] | _ => [of_chars (rev cur)] end
  | c :: r =>
      if is_space c then
        match cur with
        | [] => split_go [] r
        | _ => of_chars (rev cur) :: split_go [] r
        end
      else split_go (c :: cur) r
  end.

Definition split (s : string) : list string := split_go [] (chars s).

(** [set(xs)]: the distinct elements, as a duplicate-free list. *)
Fixpoint to_set (xs : list string) : list string :=
  match xs with
  | [] => []
  | x :: r => let s := to_set r in if existsb (String.eqb x) s then s else x :: s
  end.

Definition mem (x : string) (s : list string) : bool := existsb (String.eqb x) s.

(** [len(words1.intersection(words2))] and [len(words1.union(words2))]
    for two duplicate-free lists. *)
Definition inter_size (a b : list string) : nat :=
  List.length (filter (fun x => mem x b) a).
Definition union_size (a b : list string) : nat :=
  (List.length a + List.length (filter (fun x => negb (mem x a)) b))%nat.

(** [re.match(prefix, s, re.IGNORECASE)] for an ASCII word [w] given in
    lower case: the characters following the matched prefix. *)
Fixpoint match_word_ci (w : list ascii) (l : list ascii) : option (list ascii) :=
  match w, l with
  | [], _ => Some l
  | a :: w', c :: l' =>
      if Ascii.eqb a (lower_char c) then match_word_ci w' l' else None
  | _ :: _, [] => None
  end.

(** [\d+] followed by nothing in particular: the input starts with a digit. *)
Definition starts_with_digit (l : list ascii) : bool :=
  match l with c :: _ => is_digit c | [] => false end.

(** Decimal digits of a natural number ([str(n)]). *)
Fixpoint dec_go (fuel n : nat) (acc : list ascii) : list ascii :=
  match fuel with
  | O => acc
  | S fuel' =>
      let acc' := ascii_of_nat (48 + n mod 10) :: acc in
      if (n <? 10)%nat then acc' else dec_go fuel' (n / 10) acc'
  end.

Definition nat_to_dec (n : nat) : string := of_chars (dec_go (S n) n []).

(** [f"{n:03d}"] for a natural number. *)
Definition pad3 (n : nat) : string :=
  let d := chars (nat_to_dec n) in
  of_chars (repeat "0"%char (3 - List.length d) ++ d).

(** [f"{x:.1f}"] for a number [x], rounding half to even. *)
Definition round_half_even (x : Q) : Z :=
  let n := Qnum x in
  let d := Zpos (Qden x) in
  let fl := Z.div n d in
  let rem := n - fl * d in
  match Z.compare (2 * rem) d with
  | Lt => fl
  | Gt => fl + 1
  | Eq => if Z.even fl then fl else fl + 1
  end.

Definition format_1f (x : Q) : string :=
  let r := Z.abs (round_half_even (x * 10)%Q) in
  (if Qlt_bool x 0 then "-" else "") ++
  nat_to_dec (Z.to_nat (r / 10)) ++ "." ++ nat_to_dec (Z.to_nat (r mod 10)).

End Text.

(** ** [chapter_detector.py] *)
Module ChapterDetector.
Import Text.
Open Scope string_scope.

(** [ChapterBoundary]; the optional layout fields [position_y], [font_size]
    and [is_bold] are not read by any of the functions modelled here. *)
Record ChapterBoundary := mkBoundary {
  page_num : Z;
  title : string;
  confidence : Q;
  detection_method : string;
  level : Z
}.

(** [ChapterStructure]; its [metadata] dictionary of diagnostic counts is
    left out. *)
Record ChapterStructure := mkStructure {
  chapters : list ChapterBoundary;
  total_confidence : Q;
  detection_methods_used : list string
}.

Definition with_title (c : ChapterBoundary) (t : string) : ChapterBoundary :=
  mkBoundary (page_num c) t (confidence c) (detection_method c) (level c).

(** Python's [min(a, b)] and [max(a, b)]: the first argument unless the
    second is strictly smaller (resp. larger). *)
Definition py_min (a b : Q) : Q := if Qlt_bool b a then b else a.
Definition py_max (a b : Q) : Q := if Qlt_bool a b then b else a.

(** [max(0, min(100, confidence))] *)
Definition clamp100 (c : Q) : Q := py_max 0 (py_min 100 c).

(** [re.match(r'^(Chapter|第|章|Part|部分|Section|节)\s*\d+', title, re.IGNORECASE)]
    restricted to its ASCII alternatives. *)
Definition chapter_indicator (t : string) : bool :=
  existsb (fun w =>
    match match_word_ci (chars w) (chars t) with
    | Some rest => starts_with_digit (drop_while is_space rest)
    | None => false
    end) ["chapter"; "part"; "section"].

(** [_calculate_bookmark_confidence] *)
Definition calculate_bookmark_confidence (t : string) (lvl : Z) : Q :=
  let c0 := 90%Q in
  let c1 := if chapter_indicator t then (c0 + 5)%Q else c0 in
  let c2 := if Nat.ltb (String.length t) 5 then (c1 - 10)%Q else c1 in
  let c3 := if Z.ltb 2 lvl then (c2 - 5)%Q else c2 in
  clamp100 c3.

(** [str.isdigit] *)
Definition isdigit (s : string) : bool :=
  match chars s with [] => false | l => forallb is_digit l end.

(** An entry [[level, title, page]] of [pdf_doc.get_toc()]. *)
Definition toc_item : Type := (Z * string * Z)%type.

Fixpoint bookmarks_of_toc (toc : list toc_item) : list ChapterBoundary :=
  match toc with
  | [] => []
  | (lvl, raw, page) :: rest =>
      let t := strip raw in
      if String.eqb t "" then bookmarks_of_toc rest
      else if Nat.ltb (String.length t) 2 || isdigit t then bookmarks_of_toc rest
      else mkBoundary (page - 1) t (calculate_bookmark_confidence t lvl)
             "bookmark" lvl :: bookmarks_of_toc rest
  end.

(** [_extract_bookmarks]: [None] stands for a [pdf_doc] whose [get_toc]
    raises (in particular [pdf_doc = None], as the pipeline passes it),
    which the method turns into an empty list. *)
Definition extract_bookmarks (toc : option (list toc_item)) : list ChapterBoundary :=
  match toc with
  | None => []
  | Some items => bookmarks_of_toc items
  end.

(** [_calculate_font_confidence] *)
Definition calculate_font_confidence (font_size avg_size max_size : Q) (is_bold : bool) : Q :=
  let size_ratio :=
    if Qlt_bool avg_size max_size then ((font_size - avg_size) / (max_size - avg_size))%Q
    else 0%Q in
  let c := (50 + size_ratio * 40)%Q in
  let c := if is_bold then (c + 10)%Q else c in
  clamp100 c.

(** [_titles_similar] *)
Definition titles_similar (title1 title2 : string) (threshold : Q) : bool :=
  let t1 := strip (lower title1) in
  let t2 := strip (lower title2) in
  if String.eqb t1 t2 then true
  else
    let words1 := to_set (split t1) in
    let words2 := to_set (split t2) in
    match words1, words2 with
    | [], _ | _, [] => false
    | _, _ =>
        let similarity :=
          (inject_Z (Z.of_nat (inter_size words1 words2))
           / inject_Z (Z.of_nat (union_size words1 words2)))%Q in
        Qle_bool threshold similarity
    end.

Definition default_threshold : Q := (8 # 10)%Q.

(** [_conflicts_with_existing] *)
Definition conflicts_with_existing (c : ChapterBoundary) (existing : list ChapterBoundary) : bool :=
  existsb (fun e =>
    ((Z.eqb (page_num c) (page_num e)) && titles_similar (title c) (title e) default_threshold)
    || ((Z.leb (Z.abs (page_num c - page_num e)) 2)
        && titles_similar (title c) (title e) default_threshold)) existing.

(** One [for] loop of [_combine_detection_methods]: each candidate is
    appended unless it conflicts with the boundaries collected so far,
    including those appended earlier in the same loop. *)
Fixpoint add_non_conflicting (acc cands : list ChapterBoundary) : list ChapterBoundary :=
  match cands with
  | [] => acc
  | c :: rest =>
      if conflicts_with_existing c acc then add_non_conflicting acc rest
      else add_non_conflicting (acc ++ [c]) rest
  end.

(** [all_chapters.sort(key=lambda c: c.page_num)]: Python's sort is
    stable, as is this insertion sort, so both give the same list. *)
Fixpoint insert_by_page (c : ChapterBoundary) (l : list ChapterBoundary) : list ChapterBoundary :=
  match l with
  | [] => [c]
  | d :: rest => if Z.leb (page_num c) (page_num d) then c :: l else d :: insert_by_page c rest
  end.

Fixpoint sort_by_page (l : list ChapterBoundary) : list ChapterBoundary :=
  match l with
  | [] => []
  | c :: rest => insert_by_page c (sort_by_page rest)
  end.

(** [re.sub(r'\s+', ' ', title)] *)
Fixpoint collapse_spaces (prev_space : bool) (l : list ascii) : list ascii :=
  match l with
  | [] => []
  | c :: r =>
      if is_space c then
        if prev_space then collapse_spaces true r else " "%char :: collapse_spaces true r
      else c :: collapse_spaces false r
  end.

(** [re.sub(r'^Page\s*\d+\s*[:\-]?\s*', '', title, flags=re.IGNORECASE)] *)
Definition remove_page_prefix (l : list ascii) : list ascii :=
  match match_word_ci (chars "page") l with
  | Some r =>
      let r1 := drop_while is_space r in
      if starts_with_digit r1 then
        let r2 := drop_while is_space (drop_while is_digit r1) in
        let r3 := match r2 with
                  | c :: x => if Ascii.eqb c ":" || Ascii.eqb c "-" then x else r2
                  | [] => r2
                  end in
        drop_while is_space r3
      else l
  | None => l
  end.

(** [_clean_chapter_title]; of the characters ['•·-—–'] given to
    [strip], only ['-'] is an ASCII character. *)
Definition clean_chapter_title (t : string) : string :=
  let t1 := strip t in
  let t2 := of_chars (remove_page_prefix (chars t1)) in
  let t3 := of_chars (collapse_spaces false (chars t2)) in
  let t4 := strip_by (fun c => Ascii.eqb c "-") t3 in
  match chars t4 with
  | [] => t4
  | c :: r => of_chars (upper_char c :: r)
  end.

Definition dedup_threshold : Q := (9 # 10)%Q.

(** The loop of [_deduplicate_and_improve], with the set [seen_titles]
    as a list. *)
Fixpoint dedup_go (seen : list string) (l : list ChapterBoundary) : list ChapterBoundary :=
  match l with
  | [] => []
  | c :: rest =>
      let t := strip (lower (title c)) in
      if existsb (fun s => titles_similar t s dedup_threshold) seen then dedup_go seen rest
      else
        let c' := with_title c (clean_chapter_title (title c)) in
        c' :: dedup_go (lower (title c') :: seen) rest
  end.

(** [_deduplicate_and_improve] *)
Definition deduplicate_and_improve (l : list ChapterBoundary) : list ChapterBoundary :=
  match l with
  | [] => l
  | _ => dedup_go [] l
  end.

(** [_combine_detection_methods] *)
Definition combine_detection_methods (bookmark_chapters font_chapters pattern_chapters ai_chapters
    : list ChapterBoundary) : list ChapterBoundary :=
  let all0 := bookmark_chapters in
  let all1 := add_non_conflicting all0 font_chapters in
  let all2 := add_non_conflicting all1 pattern_chapters in
  let all3 := add_non_conflicting all2 ai_chapters in
  deduplicate_and_improve (sort_by_page all3).

(** [_calculate_overall_confidence] *)
Definition method_weight (m : string) : Q :=
  if String.eqb m "bookmark" then 1%Q
  else if String.eqb m "font_analysis" then (8 # 10)%Q
  else if String.eqb m "page_pattern" then (6 # 10)%Q
  else if String.eqb m "ai_analysis" then (7 # 10)%Q
  else (5 # 10)%Q.

Definition weighted_sum (l : list ChapterBoundary) : Q :=
  fold_left (fun acc c => (acc + confidence c * method_weight (detection_method c))%Q) l 0%Q.

Definition weight_sum (l : list ChapterBoundary) : Q :=
  fold_left (fun acc c => (acc + method_weight (detection_method c))%Q) l 0%Q.

Definition calculate_overall_confidence (l : list ChapterBoundary) : Q :=
  match l with
  | [] => 0%Q
  | _ => if Qlt_bool 0 (weight_sum l) then (weighted_sum l / weight_sum l)%Q else 0%Q
  end.

Definition method_names : list string :=
  ["bookmark"; "font_analysis"; "page_pattern"; "ai_analysis"].

(** [_get_used_methods] as written: the loop variable [method_list] is the
    i-th method NAME, and [method_list[i]] is its i-th character. *)
Fixpoint get_used_methods_go (i : nat) (names : list string)
    (method_lists : list (list ChapterBoundary)) : list string :=
  match names with
  | [] => []
  | name :: names' =>
      let nonempty := match nth_error method_lists i with
                      | Some (_ :: _) => true
                      | _ => false
                      end in
      let rest := get_used_methods_go (S i) names' method_lists in
      if nonempty then
        match String.get i name with
        | Some ch => String ch EmptyString :: rest
        | None => rest (* unreachable: every name has more than 3 characters *)
        end
      else rest
  end.

Definition get_used_methods (method_lists : list (list ChapterBoundary)) : list string :=
  get_used_methods_go 0 method_names method_lists.

(** [detect_chapters pdf_doc text_blocks]: the bookmark table comes from
    [pdf_doc] ([None] when [get_toc] raises); [font_chapters] and
    [pattern_chapters] are the lists returned by [_detect_by_font_analysis]
    and [_detect_by_page_patterns]; [ai_out] is the list returned by
    [_detect_by_ai_analysis], which is only called when an AI service is
    configured. *)
Definition detect_chapters (toc : option (list toc_item))
    (font_chapters pattern_chapters : list ChapterBoundary)
    (ai_service : bool) (ai_out : list ChapterBoundary) : ChapterStructure :=
  let bookmark_chapters := extract_bookmarks toc in
  let ai_chapters := if ai_service then ai_out else [] in
  let combined := combine_detection_methods bookmark_chapters font_chapters
                    pattern_chapters ai_chapters in
  mkStructure combined (calculate_overall_confidence combined)
    (get_used_methods [bookmark_chapters; font_chapters; pattern_chapters; ai_chapters]).

End ChapterDetector.

(** ** [pdf_parser.py] *)
Module PdfParser.
Open Scope string_scope.

(** [TextBlock]; the coordinates, font name, font size and boldness are
    read only by the chapter detectors, whose results are inputs of
    [ChapterDetector.detect_chapters]. *)
Record TextBlock := mkBlock {
  text : string;
  page_num : Z
}.

(** [PDFMetadata] *)
Record PDFMetadata := mkMetadata {
  title : option string;
  author : option string;
  page_count : Z;
  is_encrypted : bool;
  has_bookmarks : bool;
  scan_probability : Q
}.

(** The two entries of the dictionary returned by [validate_pdf] that the
    pipeline reads, with the defaults of [validation.get(key, False)]. *)
Record Validation := mkValidation {
  is_valid : bool;
  v_is_encrypted : bool
}.

(** [sum(len(block.text) for block in text_blocks)] *)
Definition total_text_length (blocks : list TextBlock) : Z :=
  fold_left (fun acc b => acc + Z.of_nat (String.length (text b))) blocks 0.

(** [_calculate_scan_probability] *)
Definition calculate_scan_probability (blocks : list TextBlock) (page_count : Z) : Q :=
  if Z.eqb page_count 0 then 1%Q
  else
    let avg_text_per_page := (inject_Z (total_text_length blocks) / inject_Z page_count)%Q in
    if Qlt_bool avg_text_per_page 50 then (9 # 10)%Q
    else if Qlt_bool avg_text_per_page 100 then (6 # 10)%Q
    else if Qlt_bool avg_text_per_page 200 then (3 # 10)%Q
    else (1 # 10)%Q.

End PdfParser.

(** ** [epub_generator.py] *)
Module EpubGenerator.
Import Text.
Open Scope string_scope.

(** Python exceptions raised by the modelled code. *)
Inductive PyExc := ValueError (msg : string).

Inductive Result (A : Type) := Ok (a : A) | Raise (e : PyExc).
Arguments Ok {A} a.
Arguments Raise {A} e.

Definition bind {A B} (m : Result A) (f : A -> Result B) : Result B :=
  match m with Ok a => f a | Raise e => Raise e end.

Notation "x <- m ;; k" := (bind m (fun x => k)) (at level 61, m at next level, right associativity).

(** [EpubChapter]; [images] is always the empty list in the code modelled. *)
Record EpubChapter := mkChapter {
  chapter_id : string;
  ch_title : option string;
  content : string;
  file_name : string;
  ch_level : Z;
  ch_page_num : Z
}.

(** [" ".join(xs)] *)
Definition join_space (xs : list string) : string := String.concat " " xs.

(** [pages[p]] of the grouping dictionary: the blocks of page [p], in
    document order. *)
Definition blocks_of_page (blocks : list PdfParser.TextBlock) (p : Z) : list PdfParser.TextBlock :=
  filter (fun b => Z.eqb (PdfParser.page_num b) p) blocks.

(** [max(pages.keys())]: raises [ValueError] on an empty dictionary. *)
Definition max_page (blocks : list PdfParser.TextBlock) : Result Z :=
  match blocks with
  | [] => Raise (ValueError "max() arg is an empty sequence")
  | b :: rest => Ok (fold_left (fun m b' => Z.max m (PdfParser.page_num b')) rest (PdfParser.page_num b))
  end.

(** [range(start, stop)] *)
Definition py_range (start stop : Z) : list Z :=
  map (fun k => start + Z.of_nat k) (seq 0 (Z.to_nat (stop - start))).

(** The loop over [sorted_boundaries], from index [i]. *)
Fixpoint chapters_from (blocks : list PdfParser.TextBlock) (i : nat)
    (bs : list ChapterDetector.ChapterBoundary) : Result (list EpubChapter) :=
  match bs with
  | [] => Ok []
  | b :: rest =>
      let start_page := ChapterDetector.page_num b in
      end_page <- (match rest with
                   | nb :: _ => Ok (ChapterDetector.page_num nb - 1)
                   | [] => max_page blocks
                   end) ;;
      let chapter_text :=
        flat_map (fun p => map PdfParser.text (blocks_of_page blocks p))
          (py_range start_page (end_page + 1)) in
      let cid := "chapter_" ++ pad3 (S i) in
      tl <- chapters_from blocks (S i) rest ;;
      Ok (mkChapter cid (Some (ChapterDetector.title b)) (join_space chapter_text)
            (cid ++ ".xhtml") (ChapterDetector.level b) start_page :: tl)
  end.

(** [create_chapters_from_text_blocks text_blocks chapter_boundaries metadata];
    [meta_title] is [metadata.get('title', 'Document')]. *)
Definition create_chapters_from_text_blocks (blocks : list PdfParser.TextBlock)
    (chapter_boundaries : list ChapterDetector.ChapterBoundary)
    (meta_title : option string) : Result (list EpubChapter) :=
  match chapter_boundaries with
  | [] =>
      Ok [mkChapter "chapter_001" meta_title (join_space (map PdfParser.text blocks))
            "chapter_001.xhtml" 1 0]
  | _ => chapters_from blocks 0 (ChapterDetector.sort_by_page chapter_boundaries)
  end.

End EpubGenerator.

(** ** [calibre_fallback.py] *)
Module CalibreFallback.
Import Text.
Open Scope string_scope.

(** The three entries of the [pdf_complexity] dictionary that are read,
    with the defaults of [pdf_complexity.get(key, False)]. *)
Record Complexity := mkComplexity {
  c_is_encrypted : bool;
  has_drm : bool;
  complex_layout : bool
}.

Section Fallback.
(** The configuration constants [ENABLE_CALIBRE_FALLBACK] and
    [CALIBRE_QUALITY_THRESHOLD], the text [str()] gives for the latter,
    and the [calibre_available] flag set by the constructor. *)
Variable ENABLE_CALIBRE_FALLBACK : bool.
Variable CALIBRE_QUALITY_THRESHOLD : Q.
Variable threshold_str : string.
Variable calibre_available : bool.

(** [is_available] *)
Definition is_available : bool := ENABLE_CALIBRE_FALLBACK && calibre_available.

(** [should_trigger_fallback]; [pdf_complexity = None] and an empty
    dictionary are both falsy, and both are [None] here. *)
Definition should_trigger_fallback (custom_quality_score : Q) (error_occurred user_requested : bool)
    (pdf_complexity : option Complexity) : bool * string :=
  if negb is_available then (false, "Calibre not available")
  else if user_requested then (true, "User explicitly requested Calibre conversion")
  else if error_occurred then (true, "Custom pipeline encountered unrecoverable error")
  else if Qlt_bool custom_quality_score CALIBRE_QUALITY_THRESHOLD then
    (true, "Custom quality score (" ++ format_1f custom_quality_score
           ++ ") below threshold (" ++ threshold_str ++ ")")
  else
    match pdf_complexity with
    | Some c =>
        if c_is_encrypted c then (true, "PDF is encrypted")
        else if has_drm c then (true, "PDF has DRM protection")
        else if complex_layout c then (true, "PDF has complex layout requiring specialized handling")
        else (false, "Custom conversion quality acceptable")
    | None => (false, "Custom conversion quality acceptable")
    end.
End Fallback.

End CalibreFallback.

(** ** [conversion_pipeline.py] *)
Module Pipeline.
Import Text EpubGenerator.
Open Scope string_scope.

(** [ConversionResult]; [output_path], [total_duration] and the
    [metadata] dictionary are left out. *)
Record ConversionResult := mkResult {
  success : bool;
  error_message : option string;
  quality_score : Q;
  method_used : string;
  stages_completed : list string
}.

(** [_create_failure_result] *)
Definition create_failure_result (msg : string) : ConversionResult :=
  mkResult false (Some msg) 0 "failed" [].

(** Python truthiness of an optional string. *)
Definition truthy (s : option string) : bool :=
  match s with Some t => negb (String.eqb t "") | None => false end.

(** [_calculate_quality_score]; [n_images] is [len(images)].  A
    [ChapterStructure] object is always truthy and has the attribute
    [total_confidence]; [None] is what stage 3 returns on an exception. *)
Definition calculate_quality_score (metadata : PdfParser.PDFMetadata)
    (chapter_structure : option ChapterDetector.ChapterStructure) (n_images : nat) : Q :=
  let score := 50%Q in
  let score := if truthy (PdfParser.title metadata) && truthy (PdfParser.author metadata)
               then (score + 10)%Q else score in
  let score := if PdfParser.has_bookmarks metadata then (score + 15)%Q else score in
  let score := match chapter_structure with
               | Some cs => (score + ChapterDetector.total_confidence cs * (2 # 10))%Q
               | None => score
               end in
  let score := match n_images with
               | O => score
               | _ => (score + inject_Z (Z.min (Z.of_nat n_images * 2) 15))%Q
               end in
  let score := if Qlt_bool (PdfParser.scan_probability metadata) (3 # 10) then (score + 10)%Q
               else if Qlt_bool (PdfParser.scan_probability metadata) (7 # 10) then (score + 5)%Q
               else score in
  ChapterDetector.py_min 100 score.

Section Config.
(** The configuration constant [CALIBRE_QUALITY_THRESHOLD]. *)
Variable CALIBRE_QUALITY_THRESHOLD : Q.

(** [_should_trigger_fallback] *)
Definition should_trigger_fallback (result : ConversionResult) : bool :=
  if truthy (error_message result) then true
  else if Qlt_bool (quality_score result) CALIBRE_QUALITY_THRESHOLD then true
  else false.
End Config.

(** [_determine_ocr_need] *)
Definition determine_ocr_need (blocks : list PdfParser.TextBlock) : bool :=
  match blocks with
  | [] => true
  | _ =>
      let avg_text_per_block :=
        (inject_Z (PdfParser.total_text_length blocks) / inject_Z (Z.of_nat (List.length blocks)))%Q in
      Qlt_bool avg_text_per_block 50
  end.

(** [_stage_2_content_extraction].  [ocr_results] is what
    [ocr_service.process_document] returns (the texts of its results;
    [None] when it raises), and [processed] what
    [image_processor.process_images] returns (it catches its own
    exceptions).  The first component tells whether OCR was invoked. *)
Definition stage_2_content_extraction {Img : Type} (blocks : list PdfParser.TextBlock)
    (ocr_results : option (list string)) (processed : list Img)
    : bool * (string * list Img) :=
  let ocr_needed := determine_ocr_need blocks in
  let extracted_text := join_space (map PdfParser.text blocks) in
  let after_ocr :=
    if ocr_needed then
      match ocr_results with
      | None => None
      | Some rs =>
          let ocr_text := join_space rs in
          if negb (String.eqb ocr_text "")
             && Nat.ltb (String.length extracted_text) (String.length ocr_text)
          then Some ocr_text else Some extracted_text
      end
    else Some extracted_text in
  match after_ocr with
  | None => (ocr_needed, ("", []))
  | Some t => (ocr_needed, (t, processed))
  end.

(** [_stage_4_ai_enhancement]; [epub_metadata] is what
    [epub_generator.generate_metadata] returns ([None] when it raises).
    The result is [(epub_metadata, chapters)], [(None, [])] on an
    exception. *)
Definition stage_4_ai_enhancement {EpubMetadata : Type} (extracted_text : string)
    (chapter_structure : option ChapterDetector.ChapterStructure)
    (metadata : PdfParser.PDFMetadata) (epub_metadata : option EpubMetadata)
    : option EpubMetadata * list EpubChapter :=
  match epub_metadata with
  | None => (None, [])
  | Some em =>
      match chapter_structure with
      | Some cs =>
          match create_chapters_from_text_blocks [] (ChapterDetector.chapters cs)
                  (PdfParser.title metadata) with
          | Ok chs => (Some em, chs)
          | Raise _ => (None, [])
          end
      | None =>
          let t := if truthy (PdfParser.title metadata) then PdfParser.title metadata
                   else Some "Document" in
          (Some em, [mkChapter "chapter_001" t extracted_text "chapter_001.xhtml" 1 0])
      end
  end.

Definition stage_names : list string :=
  ["pdf_analysis"; "content_extraction"; "structure_recognition"; "ai_enhancement"; "epub_generation"].

(** [_run_custom_pipeline].  The results of the external calls are inputs:
    [stage1] is what [pdf_parser.parse_pdf] returns ([None] when it
    raises); [ocr_results] and [processed] are as in
    [stage_2_content_extraction]; [font_chapters], [pattern_chapters],
    [ai_service] and [ai_out] are as in [ChapterDetector.detect_chapters],
    to which stage 3 passes [pdf_doc = None]; [epub_metadata] is as in
    [stage_4_ai_enhancement]; [generate_epub] gives the boolean stage 5
    returns for the metadata, chapters and images it is passed ([false]
    when [epub_generator.generate_epub] raises). *)
Definition run_custom_pipeline {RawImg Img EpubMetadata : Type}
    (stage1 : option (PdfParser.PDFMetadata * list PdfParser.TextBlock * list RawImg))
    (ocr_results : option (list string)) (processed : list Img)
    (font_chapters pattern_chapters : list ChapterDetector.ChapterBoundary)
    (ai_service : bool) (ai_out : list ChapterDetector.ChapterBoundary)
    (epub_metadata : option EpubMetadata)
    (generate_epub : option EpubMetadata -> list EpubChapter -> list Img -> bool)
    : ConversionResult :=
  match stage1 with
  | None => create_failure_result "PDF analysis failed"
  | Some (metadata, text_blocks, _) =>
      let '(_, (extracted_text, processed_images)) :=
        stage_2_content_extraction text_blocks ocr_results processed in
      let chapter_structure :=
        Some (ChapterDetector.detect_chapters None font_chapters pattern_chapters ai_service ai_out) in
      let '(enhanced_metadata, enhanced_chapters) :=
        stage_4_ai_enhancement extracted_text chapter_structure metadata epub_metadata in
      if negb (generate_epub enhanced_metadata enhanced_chapters processed_images) then create_failure_result "EPUB generation failed"
      else
        let score := calculate_quality_score metadata chapter_structure
                       (List.length processed_images) in
        mkResult true None score "custom" stage_names
  end.

(** The outcome of [calibre_fallback.convert_pdf_to_epub]: a successful
    [CalibreResult], an unsuccessful one with its [error_message], or an
    exception with its text. *)
Inductive CalibreOutcome :=
| CalibreOk
| CalibreFailed (msg : string)
| CalibreRaised (msg : string).

(** [_convert_with_calibre] *)
Definition convert_with_calibre (outcome : CalibreOutcome) : ConversionResult :=
  match outcome with
  | CalibreOk => mkResult true None 75 "calibre" ["calibre_fallback"]
  | CalibreFailed m => create_failure_result ("Calibre conversion failed: " ++ m)
  | CalibreRaised m => create_failure_result ("Calibre conversion exception: " ++ m)
  end.

(** [_is_custom_pipeline_suitable]; [None] stands for [validate_pdf]
    raising. *)
Definition is_custom_pipeline_suitable (validation : option PdfParser.Validation) : bool :=
  match validation with
  | None => false
  | Some v =>
      if negb (PdfParser.is_valid v) then false
      else if PdfParser.v_is_encrypted v then false
      else true
  end.

(** The conversion paths run by [convert_pdf_to_epub], in order. *)
Inductive PathRun := LegacyPath | CustomPath | CalibrePath.

(** [convert_pdf_to_epub]: [enhanced] is the flag [ENHANCED_PDF_CONVERSION],
    [threshold] the constant [CALIBRE_QUALITY_THRESHOLD]; [legacy] is the
    result of [_fallback_to_old_implementation], [custom] the result of
    [_run_custom_pipeline] and [calibre] the outcome of the Calibre call.
    The second component lists the paths that were run. *)
Definition convert_pdf_to_epub (enhanced : bool) (threshold : Q) (use_calibre : bool)
    (legacy : ConversionResult) (validation : option PdfParser.Validation)
    (custom : ConversionResult) (calibre : CalibreOutcome) : ConversionResult * list PathRun :=
  if negb enhanced then (legacy, [LegacyPath])
  else if use_calibre || negb (is_custom_pipeline_suitable validation) then
    (convert_with_calibre calibre, [CalibrePath])
  else
    let pipeline_result := custom in
    if negb (success pipeline_result) || should_trigger_fallback threshold pipeline_result then
      let calibre_result := convert_with_calibre calibre in
      if success calibre_result then (calibre_result, [CustomPath; CalibrePath])
      else if success pipeline_result then (pipeline_result, [CustomPath; CalibrePath])
      else (create_failure_result "Both custom pipeline and Calibre failed", [CustomPath; CalibrePath])
    else (pipeline_result, [CustomPath]).

End Pipeline.

(** ** The quality score as the specification words it

    Read from the specification ("base 50; +10 if both title and author are
    known; +15 if an outline/bookmark structure was found; + (chapter-structure
    confidence x 0.2); + up to 15 for image volume (2 points per image,
    capped); +10 if scan-probability < 0.3, +5 if < 0.7"), to be compared
    with [Pipeline.calculate_quality_score]. *)
Module SpecQuality.

Definition claimed_quality_score (title_and_author_known outline_found : bool)
    (chapter_confidence : Q) (n_images : nat) (scan_probability : Q) : Q :=
  (50
   + (if title_and_author_known then 10 else 0)
   + (if outline_found then 15 else 0)
   + chapter_confidence * (2 # 10)
   + inject_Z (Z.min (2 * Z.of_nat n_images) 15)
   + (if Qlt_bool scan_probability (3 # 10) then 10
      else if Qlt_bool scan_probability (7 # 10) then 5 else 0))%Q.

End SpecQuality.

(** ** More Python string operations on ASCII characters *)
Module PyStr.
Import Text.

(** [s.split(c)] for a one-character separator [c]: the pieces between the
    occurrences of [c]; there is always at least one piece. *)
Fixpoint split_char_go (sep : ascii) (cur : list ascii) (l : list ascii) : list (list ascii) :=
  match l with
  | [] => [rev cur]
  | c :: r =>
      if Ascii.eqb c sep then rev cur :: split_char_go sep [] r
      else split_char_go sep (c :: cur) r
  end.

Definition split_char (sep : ascii) (l : list ascii) : list (list ascii) :=
  split_char_go sep [] l.

Fixpoint take_while (p : ascii -> bool) (l : list ascii) : list ascii :=
  match l with
  | [] => []
  | c :: r => if p c then c :: take_while p r else []
  end.

Fixpoint is_prefix (p l : list ascii) : bool :=
  match p, l with
  | [], _ => true
  | a :: p', c :: l' => Ascii.eqb a c && is_prefix p' l'
  | _ :: _, [] => false
  end.

(** [p in s] for two strings. *)
Fixpoint contains (p l : list ascii) : bool :=
  is_prefix p l || match l with [] => false | _ :: r => contains p r end.

(** [int(s)] for a non-empty string of ASCII digits. *)
Definition digits_value (ds : list ascii) : Z :=
  fold_left (fun acc d => acc * 10 + (Z.of_nat (nat_of_ascii d) - 48)) ds 0.

End PyStr.

(** ** [TextBlock] and [_extract_text_blocks] of [pdf_parser.py] *)
Module PdfLayout.
Import Text.
Open Scope string_scope.

(** [TextBlock] with all its fields; [to_block] keeps the two fields read
    by the pipeline, the text and the page. *)
Record TextBlock := mkTextBlock {
  text : string;
  x0 : Q;
  y0 : Q;
  x1 : Q;
  y1 : Q;
  font_name : string;
  font_size : Q;
  is_bold : bool;
  page_num : Z;
  block_id : Z
}.

Definition to_block (b : TextBlock) : PdfParser.TextBlock :=
  PdfParser.mkBlock (text b) (page_num b).

(** The entries of [page.get_text("dict")] that are read: a span's ["text"],
    ["font"], ["size"] and ["bbox"], a line's ["spans"], a block's ["type"]
    and ["lines"]; [None] is a missing key, replaced by the default of
    [.get]. *)
Record Span := mkSpan {
  span_text : option string;
  span_font : option string;
  span_size : option Q;
  span_bbox : option (list Q)
}.

Record Line := mkLine { line_spans : option (list Span) }.

Record Block := mkRawBlock {
  block_type : option Z;
  block_lines : option (list Line)
}.

Definition get_or {A} (d : A) (o : option A) : A :=
  match o with Some a => a | None => d end.

(** The spans visited by the nested loops, in order: those of the lines of
    the text blocks ([type == 0]). *)
Definition spans_of (blocks : list Block) : list Span :=
  flat_map (fun blk =>
    match block_type blk with
    | Some t =>
        if Z.eqb t 0 then flat_map (fun ln => get_or [] (line_spans ln)) (get_or [] (block_lines blk))
        else []
    | None => []
    end) blocks.

(** The loop body over the spans: [acc] is [text_blocks].  Indexing a
    [bbox] with fewer than four entries raises [IndexError], which the
    [except] clause catches before returning the blocks collected so far. *)
Fixpoint extract_go (page_num : Z) (acc : list TextBlock) (ss : list Span) : list TextBlock :=
  match ss with
  | [] => acc
  | s :: r =>
      let t := strip (get_or "" (span_text s)) in
      if String.eqb t "" then extract_go page_num acc r
      else
        let font_name := get_or "" (span_font s) in
        let font_size := get_or 0%Q (span_size s) in
        let is_bold := PyStr.contains (chars "bold") (chars (lower font_name)) in
        let bbox := get_or [0; 0; 0; 0]%Q (span_bbox s) in
        match nth_error bbox 0, nth_error bbox 1, nth_error bbox 2, nth_error bbox 3 with
        | Some a, Some b, Some c, Some d =>
            extract_go page_num
              (acc ++ [mkTextBlock t a b c d font_name font_size is_bold page_num
                         (Z.of_nat (List.length acc))])%list r
        | _, _, _, _ => acc
        end
  end.

(** [_extract_text_blocks page page_num]; [None] stands for
    [page.get_text("dict")] raising. *)
Definition extract_text_blocks (page_dict : option (option (list Block))) (page_num : Z)
    : list TextBlock :=
  match page_dict with
  | None => []
  | Some blocks => extract_go page_num [] (spans_of (get_or [] blocks))
  end.

End PdfLayout.

(** ** The detectors of [chapter_detector.py] *)
Module Detectors.
Import Text PdfLayout.
Open Scope string_scope.

(** The keys of the [pages] dictionary the detectors build, in insertion
    order, and the blocks stored under one of them, in document order. *)
Definition page_keys (blocks : list TextBlock) : list Z :=
  fold_left (fun ks b => if existsb (Z.eqb (page_num b)) ks then ks else (ks ++ [page_num b])%list)
    blocks [].

Definition page_blocks (blocks : list TextBlock) (p : Z) : list TextBlock :=
  filter (fun b => Z.eqb (page_num b) p) blocks.

(** [sorted(pages.keys())] *)
Fixpoint insert_Z (x : Z) (l : list Z) : list Z :=
  match l with
  | [] => [x]
  | y :: r => if Z.leb x y then x :: l else y :: insert_Z x r
  end.

Definition sort_Z (l : list Z) : list Z := fold_right insert_Z [] l.

(** [max(xs, key=key)] on a non-empty list [x :: xs]: the first element
    whose key is maximal. *)
Definition max_by {A : Type} (key : A -> Q) (x : A) (xs : list A) : A :=
  fold_left (fun m y => if Qlt_bool (key m) (key y) then y else m) xs x.

Fixpoint filter_some {A : Type} (l : list (option A)) : list A :=
  match l with
  | [] => []
  | Some a :: r => a :: filter_some r
  | None :: r => filter_some r
  end.

(** [_is_likely_heading], on ASCII text: the first pattern is the one of
    [ChapterDetector.chapter_indicator]; [\d+\.\s+], [[IVXLCDM]+\.\s+] and
    [[A-Z]\.\s+] are matched case-insensitively at the start. *)
Definition is_roman_char (c : ascii) : bool :=
  existsb (fun r => Ascii.eqb r (lower_char c)) ["i"; "v"; "x"; "l"; "c"; "d"; "m"]%char.

Definition is_letter (c : ascii) : bool :=
  let n := nat_of_ascii (lower_char c) in ((97 <=? n) && (n <=? 122))%nat.

Definition dot_space (l : list ascii) : bool :=
  match l with
  | "."%char :: c :: _ => is_space c
  | _ => false
  end.

Definition run_dot_space (p : ascii -> bool) (l : list ascii) : bool :=
  match l with
  | c :: _ => p c && dot_space (drop_while p l)
  | [] => false
  end.

Definition ends_with_punct (l : list ascii) : bool :=
  match rev l with
  | c :: _ => existsb (Ascii.eqb c) ["."; "!"; "?"]%char
  | [] => false
  end.

Definition stop_words : list string := ["the"; "and"; "or"; "but"; "because"].

Definition is_likely_heading (text0 : string) : bool :=
  let t := strip text0 in
  let l := chars t in
  if ChapterDetector.chapter_indicator t || run_dot_space is_digit l
     || run_dot_space is_roman_char l
     || (match l with c :: r => is_letter c && dot_space r | [] => false end)
  then true
  else if Nat.ltb (String.length t) 100 && negb (ends_with_punct l)
          && negb (existsb (fun w => PyStr.contains (chars w) (chars (lower t))) stop_words)
  then true
  else false.

(** [_detect_by_font_analysis] *)
Definition font_sizes (blocks : list TextBlock) : list Q :=
  map font_size (filter (fun b => Qlt_bool 0 (font_size b)) blocks).

Definition font_heading (avg mx threshold : Q) (p : Z) (b : TextBlock)
    : option (Q * ChapterDetector.ChapterBoundary) :=
  if Qle_bool threshold (font_size b) && is_bold b && Nat.ltb 2 (String.length (strip (text b)))
  then
    if is_likely_heading (text b) then
      Some (font_size b,
            ChapterDetector.mkBoundary p (strip (text b))
              (ChapterDetector.calculate_font_confidence (font_size b) avg mx (is_bold b))
              "font_analysis" 1)
    else None
  else None.

Definition detect_by_font_analysis (blocks : list TextBlock) : list ChapterDetector.ChapterBoundary :=
  match blocks with
  | [] => []
  | _ =>
      match font_sizes blocks with
      | [] => []
      | f0 :: fr =>
          let avg := (fold_left Qplus (f0 :: fr) 0 / inject_Z (Z.of_nat (List.length (f0 :: fr))))%Q in
          let mx := max_by (fun q => q) f0 fr in
          let threshold := (avg + (mx - avg) * (3 # 10))%Q in
          flat_map (fun p =>
            match filter_some (map (font_heading avg mx threshold p) (page_blocks blocks p)) with
            | [] => []
            | h :: hs => [snd (max_by fst h hs)]
            end) (page_keys blocks)
      end
  end.

(** [_detect_by_page_patterns]; [pdf_doc] is not read. *)
Definition detect_by_page_patterns (blocks : list TextBlock) : list ChapterDetector.ChapterBoundary :=
  flat_map (fun p =>
    match filter (fun b => Qlt_bool (y0 b) 200) (page_blocks blocks p) with
    | [] => []
    | b0 :: bs =>
        let top_block := max_by font_size b0 bs in
        if Qlt_bool 14 (font_size top_block) && is_likely_heading (text top_block) then
          [ChapterDetector.mkBoundary p (strip (text top_block)) 60 "page_pattern" 1]
        else []
    end) (sort_Z (page_keys blocks)).

(** [pages_text[p]] *)
Definition page_texts (blocks : list TextBlock) (p : Z) : list string :=
  map text (page_blocks blocks p).

(** [re.match(r'Page\s*(\d+):\s*(.+)', line, re.IGNORECASE)] with its two
    groups; when only whitespace follows the colon, [\s*] gives its last
    character back to [(.+)]. *)
Definition parse_ai_line (l : list ascii) : option (list ascii * list ascii) :=
  match match_word_ci (chars "page") l with
  | None => None
  | Some r =>
      let r1 := drop_while is_space r in
      match PyStr.take_while is_digit r1, drop_while is_digit r1 with
      | (_ :: _) as ds, ":"%char :: r2 =>
          match drop_while is_space r2 with
          | [] => match rev r2 with c :: _ => Some (ds, [c]) | [] => None end
          | r3 => Some (ds, r3)
          end
      | _, _ => None
      end
  end.

Definition generic_titles : list string := ["chapter"; "section"; "part"].

(** [_parse_ai_response response pages_text], [pages_text] being built
    from [blocks]. *)
Definition parse_ai_response (response : string) (blocks : list TextBlock) : list (Z * string) :=
  filter_some (map (fun line =>
    match parse_ai_line (chars (strip (of_chars line))) with
    | None => None
    | Some (g1, g2) =>
        let p := PyStr.digits_value g1 - 1 in
        let title := strip (of_chars g2) in
        if existsb (Z.eqb p) (page_keys blocks)
           && (match page_texts blocks p with [] => false | _ => true end) then
          let title :=
            if Nat.ltb (String.length title) 3 || existsb (String.eqb (lower title)) generic_titles
            then
              let actual_text := firstn 100 (chars (EpubGenerator.join_space (page_texts blocks p))) in
              strip (of_chars (PyStr.take_while (fun c => negb (Ascii.eqb c ".")) actual_text))
            else title in
          if negb (String.eqb title "") && Nat.ltb 2 (String.length title) then Some (p, title)
          else None
        else None
    end) (PyStr.split_char "010"%char (chars (strip response)))).

(** [_detect_by_ai_analysis]: the prompt built from the first twenty pages
    is only passed to [ai_service.analyze_text], whose answer is
    [response] ([None] when the call raises). *)
Definition detect_by_ai_analysis (ai_service : bool) (blocks : list TextBlock)
    (response : option string) : list ChapterDetector.ChapterBoundary :=
  if negb ai_service then []
  else
    match blocks with
    | [] => []
    | _ =>
        let sample_pages := firstn 20 (sort_Z (page_keys blocks)) in
        if Nat.ltb (List.length sample_pages) 3 then []
        else
          match response with
          | None => []
          | Some resp =>
              map (fun '(p, t) => ChapterDetector.mkBoundary p t 70 "ai_analysis" 1)
                (parse_ai_response resp blocks)
          end
    end.

(** [detect_chapters pdf_doc text_blocks] with the four detectors. *)
Definition detect_chapters_from_blocks (toc : option (list ChapterDetector.toc_item))
    (blocks : list TextBlock) (ai_service : bool) (response : option string)
    : ChapterDetector.ChapterStructure :=
  ChapterDetector.detect_chapters toc (detect_by_font_analysis blocks)
    (detect_by_page_patterns blocks) ai_service (detect_by_ai_analysis ai_service blocks response).

End Detectors.

(** ** More of [epub_generator.py] *)
Module EpubWriter.
Import Text EpubGenerator.
Open Scope string_scope.

(** [_escape_html] *)
Definition escape_char (c : ascii) : list ascii :=
  if Ascii.eqb c "&" then chars "&amp;"
  else if Ascii.eqb c "034" then chars "&quot;"
  else if Ascii.eqb c "'" then chars "&#39;"
  else if Ascii.eqb c ">" then chars "&gt;"
  else if Ascii.eqb c "<" then chars "&lt;"
  else [c].

Definition escape_html (t : string) : string := of_chars (flat_map escape_char (chars t)).

(** [generate_epub metadata chapters images]: [_set_metadata] reads
    attributes of [metadata], so [None] raises [AttributeError];
    [_create_chapter_html] iterates over [chapter.title] in [_escape_html],
    so a chapter without title raises [TypeError]; every exception is
    turned into [False].  [write] is the outcome of the [ebooklib] calls
    (building the book and [epub.write_epub]) when no such exception
    occurs. *)
Definition generate_epub {EpubMetadata Img : Type} (metadata : option EpubMetadata)
    (chapters : list EpubChapter) (images : list Img)
    (write : EpubMetadata -> list EpubChapter -> list Img -> bool) : bool :=
  match metadata with
  | None => false
  | Some m =>
      if forallb (fun ch => match ch_title ch with Some _ => true | None => false end) chapters
      then write m chapters images
      else false
  end.

End EpubWriter.

(** ** More of [calibre_fallback.py] *)
Module CalibreTools.
Import Text.
Open Scope string_scope.

(** A dictionary with string keys and values, as an association list in
    insertion order: assigning an existing key keeps its position. *)
Fixpoint dict_set (k v : string) (d : list (string * string)) : list (string * string) :=
  match d with
  | [] => [(k, v)]
  | (k', v') :: r => if String.eqb k k' then (k', v) :: r else (k', v') :: dict_set k v r
  end.

Definition dict_update (d opts : list (string * string)) : list (string * string) :=
  fold_left (fun acc kv => dict_set (fst kv) (snd kv) acc) opts d.

Fixpoint dict_get (k : string) (d : list (string * string)) : option string :=
  match d with
  | [] => None
  | (k', v) :: r => if String.eqb k k' then Some v else dict_get k r
  end.

(** [default_options]; [chinese] is the answer of [_is_chinese_pdf]. *)
Definition default_options (chinese : bool) : list (string * string) :=
  [("--pdf-engine", "mupdf"); ("--enable-heuristics", ""); ("--keep-ligatures", "");
   ("--no-inline-toc", ""); ("--pretty-print", ""); ("--language", if chinese then "zh" else "en")].

(** The option dictionary after [default_options.update(options)]; the
    values are the texts [str(value)] gives, a value being truthy when its
    text is not empty.  [options = None] and [{}] are both [[]]. *)
Definition conversion_options (chinese : bool) (options : list (string * string))
    : list (string * string) :=
  dict_update (default_options chinese) options.

(** [_build_conversion_command] *)
Definition build_conversion_command (input_path output_path : string) (chinese : bool)
    (options : list (string * string)) : list string :=
  (["ebook-convert"; input_path; output_path]
   ++ flat_map (fun kv => fst kv :: (if String.eqb (snd kv) "" then [] else [snd kv]))
        (conversion_options chinese options))%list.

(** The dictionary returned by [_analyze_calibre_output]. *)
Record Indicators := mkIndicators {
  pages_processed : Z;
  images_extracted : Z;
  toc_generated : bool;
  metadata_found : bool;
  warnings_count : Z
}.

(** [re.search(r'(\d+)\s+pages?', line)]: the number of the leftmost
    match. *)
Definition pages_match_at (l : list ascii) : option Z :=
  match PyStr.take_while is_digit l with
  | [] => None
  | ds =>
      match drop_while is_digit l with
      | c :: _ as r =>
          if is_space c && PyStr.is_prefix (chars "page") (drop_while is_space r)
          then Some (PyStr.digits_value ds) else None
      | [] => None
      end
  end.

Fixpoint search_pages (l : list ascii) : option Z :=
  match l with
  | [] => None
  | _ :: r => match pages_match_at l with Some n => Some n | None => search_pages r end
  end.

Definition has (w : string) (l : list ascii) : bool := PyStr.contains (chars w) l.

(** One iteration of the loop over the lines. *)
Definition analyze_line (ind : Indicators) (line : list ascii) : Indicators :=
  let line_lower := map lower_char line in
  let pages :=
    if has "pages" line_lower then
      match search_pages line_lower with Some n => n | None => pages_processed ind end
    else pages_processed ind in
  let images :=
    if has "image" line_lower || has "extracting" line_lower then images_extracted ind + 1
    else images_extracted ind in
  let toc :=
    if has "toc" line_lower || has "table of contents" line_lower then true else toc_generated ind in
  let meta := if has "metadata" line_lower then true else metadata_found ind in
  let warnings :=
    if has "warning" line_lower || has "warn" line_lower then warnings_count ind + 1
    else warnings_count ind in
  mkIndicators pages images toc meta warnings.

(** [_analyze_calibre_output] *)
Definition analyze_calibre_output (stdout : string) : Indicators :=
  fold_left analyze_line (PyStr.split_char "010"%char (chars stdout)) (mkIndicators 0 0 false false 0).

(** [ConversionQualityMetrics] *)
Record QualityMetrics := mkMetrics {
  text_extraction_quality : Q;
  structure_preservation : Q;
  image_quality : Q;
  metadata_completeness : Q;
  overall_score : Q;
  file_size_ratio : Q
}.

(** [compare_conversion_quality custom_result calibre_result]: [custom_size]
    is the size of the custom EPUB ([0] when it does not exist);
    [calibre_success], [file_size] and [quality_indicators] are the fields
    of the [CalibreResult], [None] for [quality_indicators = None], whose
    subscription raises [TypeError], caught by the method. *)
Definition compare_conversion_quality (custom_size : Z) (calibre_success : bool) (file_size : Z)
    (quality_indicators : option Indicators) : QualityMetrics :=
  if negb calibre_success then mkMetrics 0 0 0 0 0 1
  else
    match quality_indicators with
    | None => mkMetrics 50 50 50 50 50 1
    | Some ind =>
        let file_size_ratio :=
          if Z.ltb 0 custom_size then (inject_Z file_size / inject_Z custom_size)%Q else 1%Q in
        let text_score := 85%Q in
        let structure_score := 80%Q in
        let image_score := if Z.ltb 0 (images_extracted ind) then 90%Q else 50%Q in
        let metadata_score := if metadata_found ind then 90%Q else 60%Q in
        mkMetrics text_score structure_score image_score metadata_score
          ((text_score + structure_score + image_score + metadata_score) / 4)%Q file_size_ratio
    end.

End CalibreTools.

(** ** More of [conversion_pipeline.py] *)
Module PipelineFull.
Import Text EpubGenerator Pipeline.
Open Scope string_scope.

(** The outcome of [ConversionService().convert_file(path, "epub")]: the
    returned dictionary's ["status"] and ["message"] entries ([None] when
    missing), or an exception with its text. *)
Inductive LegacyOutcome :=
| LegacyReturned (status message : option string)
| LegacyRaised (msg : string).

(** [_fallback_to_old_implementation] *)
Definition fallback_to_old_implementation (o : LegacyOutcome) : ConversionResult :=
  match o with
  | LegacyReturned status message =>
      if match status with Some s => String.eqb s "completed" | None => false end
      then mkResult true None 60 "legacy" ["legacy_conversion"]
      else create_failure_result (match message with Some m => m | None => "Unknown error" end)
  | LegacyRaised e => create_failure_result ("Legacy conversion failed: " ++ e)
  end.

(** [_run_custom_pipeline] with stage 3 running the four detectors on the
    text blocks of stage 1 (with [pdf_doc = None]) and stage 5 calling
    [EpubWriter.generate_epub]; [response] is the answer of the AI
    service and [write] the outcome of the [ebooklib] calls. *)
Definition run_custom_pipeline_full {RawImg Img EpubMetadata : Type}
    (stage1 : option (PdfParser.PDFMetadata * list PdfLayout.TextBlock * list RawImg))
    (ocr_results : option (list string)) (processed : list Img)
    (ai_service : bool) (response : option string)
    (epub_metadata : option EpubMetadata)
    (write : EpubMetadata -> list EpubChapter -> list Img -> bool) : ConversionResult :=
  let generate := fun m chs imgs => EpubWriter.generate_epub m chs imgs write in
  match stage1 with
  | None => @run_custom_pipeline RawImg Img EpubMetadata None ocr_results processed [] [] ai_service []
              epub_metadata generate
  | Some (metadata, blocks, raw) =>
      run_custom_pipeline (Some (metadata, map PdfLayout.to_block blocks, raw)) ocr_results processed
        (Detectors.detect_by_font_analysis blocks) (Detectors.detect_by_page_patterns blocks)
        ai_service (Detectors.detect_by_ai_analysis ai_service blocks response)
        epub_metadata generate
  end.

End PipelineFull.

(** * Properties *)

(** ** Comparisons on rationals *)
Module QFacts.

Lemma Qlt_bool_true (a b : Q) : Qlt_bool a b = true <-> (a < b)%Q.
Proof.
  unfold Qlt_bool. rewrite negb_true_iff. split; intro H.
  - apply Qnot_le_lt. intro H'. apply Qle_bool_iff in H'. congruence.
  - destruct (Qle_bool b a) eqn:E; [|reflexivity].
    apply Qle_bool_iff in E. apply Qlt_not_le in H. contradiction.
Qed.

Lemma Qlt_bool_false (a b : Q) : Qlt_bool a b = false <-> (b <= a)%Q.
Proof.
  unfold Qlt_bool. rewrite negb_false_iff. apply Qle_bool_iff.
Qed.

(** Case analysis on a [Qlt_bool] test, leaving the order fact in the context. *)
Ltac case_qlt a b :=
  let E := fresh "E" in
  destruct (Qlt_bool a b) eqn:E;
  [apply Qlt_bool_true in E | apply Qlt_bool_false in E].

End QFacts.

(** ** Chapter detection *)
Module ChapterFacts.
Import ChapterDetector QFacts.

Definition conf_ok (c : ChapterBoundary) : Prop := (0 <= confidence c <= 100)%Q.

Definition page_le (a b : ChapterBoundary) : Prop := page_num a <= page_num b.

Lemma clamp100_range (c : Q) : (0 <= clamp100 c <= 100)%Q.
Proof.
  unfold clamp100, py_max, py_min.
  case_qlt c 100%Q.
  - case_qlt 0%Q c; lra.
  - case_qlt 0%Q 100%Q; lra.
Qed.

Lemma bookmarks_of_toc_conf (toc : list toc_item) : Forall conf_ok (bookmarks_of_toc toc).
Proof.
  induction toc as [|[[lvl raw] page] rest IH]; simpl; [constructor|].
  destruct (String.eqb _ _); [exact IH|].
  destruct (_ || _); [exact IH|].
  constructor; [apply clamp100_range | exact IH].
Qed.

Lemma extract_bookmarks_conf (toc : option (list toc_item)) :
  Forall conf_ok (extract_bookmarks toc).
Proof. destruct toc; [apply bookmarks_of_toc_conf | constructor]. Qed.

Lemma add_non_conflicting_forall (P : ChapterBoundary -> Prop) (acc cands : list ChapterBoundary) :
  Forall P acc -> Forall P cands -> Forall P (add_non_conflicting acc cands).
Proof.
  revert acc. induction cands as [|c rest IH]; intros acc Hacc Hc; simpl; [exact Hacc|].
  inversion Hc; subst.
  destruct (conflicts_with_existing c acc); apply IH; auto.
  apply Forall_app; auto.
Qed.

Lemma insert_by_page_in (x c : ChapterBoundary) (l : list ChapterBoundary) :
  In x (insert_by_page c l) <-> c = x \/ In x l.
Proof.
  induction l as [|d rest IH]; simpl.
  - intuition.
  - destruct (Z.leb (page_num c) (page_num d)); simpl; [tauto|].
    rewrite IH. tauto.
Qed.

Lemma insert_by_page_sorted (c : ChapterBoundary) (l : list ChapterBoundary) :
  StronglySorted page_le l -> StronglySorted page_le (insert_by_page c l).
Proof.
  induction l as [|d rest IH]; intros Hs; simpl.
  - repeat constructor.
  - apply StronglySorted_inv in Hs as [Hrest Hd].
    destruct (Z.leb (page_num c) (page_num d)) eqn:E.
    + apply Z.leb_le in E.
      constructor; [constructor; assumption|].
      constructor; [exact E|].
      eapply Forall_impl; [|exact Hd]. unfold page_le. intros; lia.
    + apply Z.leb_gt in E.
      constructor; [apply IH; exact Hrest|].
      apply Forall_forall. intros x Hx. apply insert_by_page_in in Hx as [<-|Hx].
      * unfold page_le. lia.
      * rewrite Forall_forall in Hd. apply Hd, Hx.
Qed.

Lemma sort_by_page_in (x : ChapterBoundary) (l : list ChapterBoundary) :
  In x (sort_by_page l) <-> In x l.
Proof.
  induction l as [|c rest IH]; simpl; [tauto|].
  rewrite insert_by_page_in, IH. intuition.
Qed.

Lemma sort_by_page_sorted (l : list ChapterBoundary) : StronglySorted page_le (sort_by_page l).
Proof.
  induction l as [|c rest IH]; simpl; [constructor|].
  apply insert_by_page_sorted, IH.
Qed.

Lemma sort_by_page_forall (P : ChapterBoundary -> Prop) (l : list ChapterBoundary) :
  Forall P l -> Forall P (sort_by_page l).
Proof.
  rewrite !Forall_forall. intros H x Hx. apply H, sort_by_page_in, Hx.
Qed.

(** Every boundary kept by the de-duplication is an input boundary with
    its title replaced. *)
Lemma dedup_go_origin (seen : list string) (l : list ChapterBoundary) (x : ChapterBoundary) :
  In x (dedup_go seen l) ->
  exists y, In y l /\ page_num x = page_num y /\ confidence x = confidence y.
Proof.
  revert seen. induction l as [|c rest IH]; intros seen Hx; simpl in Hx; [contradiction|].
  destruct (existsb _ seen).
  - destruct (IH _ Hx) as (y & Hy & Hp & Hc). exists y. simpl. auto.
  - destruct Hx as [<-|Hx].
    + exists c. simpl. auto.
    + destruct (IH _ Hx) as (y & Hy & Hp & Hc). exists y. simpl. auto.
Qed.

Lemma dedup_go_sorted (seen : list string) (l : list ChapterBoundary) :
  StronglySorted page_le l -> StronglySorted page_le (dedup_go seen l).
Proof.
  revert seen. induction l as [|c rest IH]; intros seen Hs; simpl; [constructor|].
  apply StronglySorted_inv in Hs as [Hrest Hc].
  destruct (existsb _ seen); [apply IH; exact Hrest|].
  constructor; [apply IH; exact Hrest|].
  apply Forall_forall. intros x Hx.
  destruct (dedup_go_origin _ _ _ Hx) as (y & Hy & Hp & _).
  rewrite Forall_forall in Hc. specialize (Hc y Hy).
  unfold page_le in *. simpl. lia.
Qed.

Lemma dedup_go_conf (seen : list string) (l : list ChapterBoundary) :
  Forall conf_ok l -> Forall conf_ok (dedup_go seen l).
Proof.
  rewrite !Forall_forall. intros H x Hx.
  destruct (dedup_go_origin _ _ _ Hx) as (y & Hy & _ & Hc).
  unfold conf_ok. rewrite Hc. apply H, Hy.
Qed.

Lemma deduplicate_and_improve_sorted (l : list ChapterBoundary) :
  StronglySorted page_le l -> StronglySorted page_le (deduplicate_and_improve l).
Proof. destruct l; [auto | apply dedup_go_sorted]. Qed.

Lemma deduplicate_and_improve_conf (l : list ChapterBoundary) :
  Forall conf_ok l -> Forall conf_ok (deduplicate_and_improve l).
Proof. destruct l; [auto | apply dedup_go_conf]. Qed.

Lemma combine_detection_methods_sorted (b f p a : list ChapterBoundary) :
  StronglySorted page_le (combine_detection_methods b f p a).
Proof.
  apply deduplicate_and_improve_sorted, sort_by_page_sorted.
Qed.

Lemma combine_detection_methods_conf (b f p a : list ChapterBoundary) :
  Forall conf_ok b -> Forall conf_ok f -> Forall conf_ok p -> Forall conf_ok a ->
  Forall conf_ok (combine_detection_methods b f p a).
Proof.
  intros Hb Hf Hp Ha.
  apply deduplicate_and_improve_conf, sort_by_page_forall.
  repeat apply add_non_conflicting_forall; assumption.
Qed.

Lemma detect_chapters_conf (toc : option (list toc_item)) (font pattern : list ChapterBoundary)
    (ai_service : bool) (ai_out : list ChapterBoundary) :
  Forall conf_ok font -> Forall conf_ok pattern -> Forall conf_ok ai_out ->
  Forall conf_ok (chapters (detect_chapters toc font pattern ai_service ai_out)).
Proof.
  intros Hf Hp Ha. simpl.
  apply combine_detection_methods_conf; auto using extract_bookmarks_conf.
  destruct ai_service; auto.
Qed.

End ChapterFacts.

(** ** Claims on chapter detection *)
Module ChapterClaims.
Import ChapterDetector ChapterFacts.
Open Scope string_scope.

(** C1 (as stated, refuted).  Two bookmarks of the same page are both
    kept, so the boundaries are not strictly sorted; and two bookmarks one
    page apart whose titles share 8 of 10 words (80% overlap) are both
    kept, since bookmarks are not checked against each other and the final
    de-duplication uses a 90% threshold. *)
Lemma C1_counterexample :
  ~ StronglySorted (fun a b => page_num a < page_num b)
      (chapters (detect_chapters
         (Some [(1, "Chapter 1 Introduction", 1); (2, "Section 1.1 Overview", 1)])
         [] [] false []))
  /\ exists a b,
      chapters (detect_chapters
         (Some [(1, "a b c d e f g h i", 1); (1, "a b c d e f g h j", 2)]) [] [] false [])
        = [a; b]
      /\ Z.abs (page_num a - page_num b) <= 2
      /\ titles_similar (title a) (title b) default_threshold = true.
Proof.
  split.
  - vm_compute. intro H. inversion H as [|a l Hl Hf]. inversion Hf as [|x y Hxy].
    discriminate Hxy.
  - eexists _, _. split; [vm_compute; reflexivity|].
    split; [vm_compute; discriminate | vm_compute; reflexivity].
Qed.

(** C1 (amended).  For every run of [detect_chapters] in which the font,
    page-pattern and AI detectors return boundaries with confidences in
    [0,100] (as their code does: a clamped score, 60 and 70), the returned
    boundaries are sorted by page index in non-decreasing order and every
    confidence lies in [0,100]. *)
Theorem C1_detect_chapters_sorted_conf (toc : option (list toc_item))
    (font pattern : list ChapterBoundary) (ai_service : bool) (ai_out : list ChapterBoundary) :
  Forall conf_ok font -> Forall conf_ok pattern -> Forall conf_ok ai_out ->
  StronglySorted page_le (chapters (detect_chapters toc font pattern ai_service ai_out))
  /\ Forall conf_ok (chapters (detect_chapters toc font pattern ai_service ai_out)).
Proof.
  intros Hf Hp Ha. split.
  - apply combine_detection_methods_sorted.
  - apply detect_chapters_conf; assumption.
Qed.

Lemma C1_witness :
  (Forall conf_ok [mkBoundary 4 "Methods" 60 "page_pattern" 1]
   /\ Forall conf_ok [mkBoundary 2 "Results" 70 "ai_analysis" 1])
  /\ StronglySorted page_le (chapters (detect_chapters
        (Some [(1, "Chapter 1 Introduction", 1); (2, "Section 1.1 Overview", 1)])
        [] [mkBoundary 4 "Methods" 60 "page_pattern" 1] true
        [mkBoundary 2 "Results" 70 "ai_analysis" 1]))
  /\ Forall conf_ok (chapters (detect_chapters
        (Some [(1, "Chapter 1 Introduction", 1); (2, "Section 1.1 Overview", 1)])
        [] [mkBoundary 4 "Methods" 60 "page_pattern" 1] true
        [mkBoundary 2 "Results" 70 "ai_analysis" 1])).
Proof.
  assert (H1 : Forall conf_ok [mkBoundary 4 "Methods" 60 "page_pattern" 1]).
  { repeat constructor; vm_compute; discriminate. }
  assert (H2 : Forall conf_ok [mkBoundary 2 "Results" 70 "ai_analysis" 1]).
  { repeat constructor; vm_compute; discriminate. }
  split; [split; assumption|].
  apply (C1_detect_chapters_sorted_conf _ [] _ true _ (Forall_nil _) H1 H2).
Defined.

(** C8 (code bug).  [detection_methods_used] holds, for each detector
    whose list is non-empty, the character of its method name at the
    detector's position ("b", "o", "g", "a"), not the method name. *)
Theorem C8_used_methods_are_letters (toc : option (list toc_item))
    (font pattern : list ChapterBoundary) (ai_service : bool) (ai_out : list ChapterBoundary) :
  detection_methods_used (detect_chapters toc font pattern ai_service ai_out)
  = (match extract_bookmarks toc with [] => [] | _ => ["b"] end
     ++ match font with [] => [] | _ => ["o"] end
     ++ match pattern with [] => [] | _ => ["g"] end
     ++ match (if ai_service then ai_out else []) with [] => [] | _ => ["a"] end)%list.
Proof.
  unfold detect_chapters, get_used_methods. simpl.
  destruct (extract_bookmarks toc), font, pattern, (if ai_service then ai_out else []);
    reflexivity.
Qed.

End ChapterClaims.

(** ** The quality score *)
Module QualityFacts.
Import ChapterDetector ChapterFacts QFacts Pipeline.

Lemma method_weight_pos (m : string) : (0 < method_weight m)%Q.
Proof.
  unfold method_weight.
  repeat match goal with |- context [if ?b then _ else _] => destruct b end;
    reflexivity.
Qed.

Lemma weighted_fold_bounds (l : list ChapterBoundary) (a b : Q) :
  Forall conf_ok l -> (0 <= a)%Q -> (0 <= b)%Q -> (a <= 100 * b)%Q ->
  let s := fold_left (fun acc c => (acc + confidence c * method_weight (detection_method c))%Q) l a in
  let w := fold_left (fun acc c => (acc + method_weight (detection_method c))%Q) l b in
  (0 <= s)%Q /\ (0 <= w)%Q /\ (s <= 100 * w)%Q.
Proof.
  revert a b. induction l as [|c rest IH]; intros a b Hl Ha Hb Hab; simpl; [auto|].
  inversion Hl as [|x y [Hc0 Hc1] Hrest]; subst.
  pose proof (method_weight_pos (detection_method c)) as Hw.
  assert (H0 : (0 <= confidence c * method_weight (detection_method c))%Q).
  { apply Qmult_le_0_compat; lra. }
  assert (H1 : (confidence c * method_weight (detection_method c)
                <= 100 * method_weight (detection_method c))%Q).
  { apply Qmult_le_compat_r; lra. }
  apply IH; auto; lra.
Qed.

Lemma calculate_overall_confidence_range (l : list ChapterBoundary) :
  Forall conf_ok l -> (0 <= calculate_overall_confidence l <= 100)%Q.
Proof.
  intros Hl. unfold calculate_overall_confidence.
  destruct l as [|c rest]; [lra|].
  case_qlt 0%Q (weight_sum (c :: rest)); [|lra].
  destruct (weighted_fold_bounds (c :: rest) 0 0 Hl) as (Hs & _ & Hsw); try lra.
  fold (weighted_sum (c :: rest)) (weight_sum (c :: rest)) in Hs, Hsw.
  split.
  - apply Qle_shift_div_l; [exact E|]. lra.
  - apply Qle_shift_div_r; [exact E|]. lra.
Qed.

Lemma detect_chapters_total_confidence (toc : option (list toc_item))
    (font pattern : list ChapterBoundary) (ai_service : bool) (ai_out : list ChapterBoundary) :
  Forall conf_ok font -> Forall conf_ok pattern -> Forall conf_ok ai_out ->
  (0 <= total_confidence (detect_chapters toc font pattern ai_service ai_out) <= 100)%Q.
Proof.
  intros Hf Hp Ha.
  apply calculate_overall_confidence_range, detect_chapters_conf; assumption.
Qed.

(** The score before the final [min(100.0, score)]. *)
Lemma quality_score_uncapped (metadata : PdfParser.PDFMetadata)
    (cs : option ChapterStructure) (n : nat) :
  calculate_quality_score metadata cs n
  = py_min 100
      (let score := 50%Q in
       let score := if truthy (PdfParser.title metadata) && truthy (PdfParser.author metadata)
                    then (score + 10)%Q else score in
       let score := if PdfParser.has_bookmarks metadata then (score + 15)%Q else score in
       let score := match cs with
                    | Some c => (score + total_confidence c * (2 # 10))%Q
                    | None => score
                    end in
       let score := match n with
                    | O => score
                    | _ => (score + inject_Z (Z.min (Z.of_nat n * 2) 15))%Q
                    end in
       if Qlt_bool (PdfParser.scan_probability metadata) (3 # 10) then (score + 10)%Q
       else if Qlt_bool (PdfParser.scan_probability metadata) (7 # 10) then (score + 5)%Q
       else score).
Proof. reflexivity. Qed.

Lemma py_min_100_range (x : Q) : (50 <= x)%Q -> (50 <= py_min 100 x <= 100)%Q.
Proof. intros H. unfold py_min. case_qlt x 100%Q; lra. Qed.

Lemma quality_score_range (metadata : PdfParser.PDFMetadata)
    (cs : option ChapterStructure) (n : nat) :
  (forall c, cs = Some c -> (0 <= total_confidence c)%Q) ->
  (50 <= calculate_quality_score metadata cs n <= 100)%Q.
Proof.
  intros Hcs. rewrite quality_score_uncapped. apply py_min_100_range.
  assert (Himg : (0 <= inject_Z (Z.min (Z.of_nat n * 2) 15))%Q).
  { change 0%Q with (inject_Z 0). rewrite <- Zle_Qle. lia. }
  assert (Hconf : forall c, cs = Some c -> (0 <= total_confidence c * (2 # 10))%Q).
  { intros c Hc. apply Qmult_le_0_compat; [apply Hcs, Hc | discriminate]. }
  destruct (truthy _ && truthy _), (PdfParser.has_bookmarks metadata);
  destruct cs as [c|]; try specialize (Hconf c eq_refl);
  destruct n;
  destruct (Qlt_bool (PdfParser.scan_probability metadata) (3 # 10));
  try destruct (Qlt_bool (PdfParser.scan_probability metadata) (7 # 10));
  cbv beta iota zeta; lra.
Qed.

End QualityFacts.

(** ** Claims on the quality score *)
Module QualityClaims.
Import ChapterDetector ChapterFacts QFacts Pipeline QualityFacts SpecQuality.
Open Scope string_scope.
Open Scope Z_scope.

Lemma py_min_100_compat (a b : Q) : (a == b)%Q -> (py_min 100 a == py_min 100 b)%Q.
Proof. intros H. unfold py_min. case_qlt a 100%Q; case_qlt b 100%Q; lra. Qed.

(** C10.  Whenever the chapter detectors' candidates have confidences in
    [0,100], a successful run of the custom pipeline has a quality score
    in [50,100], so a fallback threshold of 50 or below never triggers the
    quality-based fallback for it. *)
Theorem C10_custom_score_at_least_50 {RawImg Img EpubMetadata : Type}
    (stage1 : option (PdfParser.PDFMetadata * list PdfParser.TextBlock * list RawImg))
    (ocr_results : option (list string)) (processed : list Img)
    (font pattern : list ChapterBoundary) (ai_service : bool) (ai_out : list ChapterBoundary)
    (epub_metadata : option EpubMetadata)
    (generate_epub : option EpubMetadata -> list EpubGenerator.EpubChapter -> list Img -> bool)
    (threshold : Q) :
  Forall conf_ok font -> Forall conf_ok pattern -> Forall conf_ok ai_out ->
  (threshold <= 50)%Q ->
  success (run_custom_pipeline stage1 ocr_results processed font pattern ai_service ai_out
             epub_metadata generate_epub) = true ->
  (50 <= quality_score (run_custom_pipeline stage1 ocr_results processed font pattern ai_service
                          ai_out epub_metadata generate_epub) <= 100)%Q
  /\ should_trigger_fallback threshold
       (run_custom_pipeline stage1 ocr_results processed font pattern ai_service ai_out
          epub_metadata generate_epub) = false.
Proof.
  intros Hf Hp Ha Hthr. unfold run_custom_pipeline.
  destruct stage1 as [[[metadata text_blocks] raw]|]; [|discriminate].
  destruct (stage_2_content_extraction text_blocks ocr_results processed)
    as [ocr_needed [extracted_text processed_images]].
  destruct (stage_4_ai_enhancement extracted_text _ metadata epub_metadata)
    as [enhanced_metadata enhanced_chapters].
  destruct (generate_epub enhanced_metadata enhanced_chapters processed_images); [|discriminate].
  intros _. simpl.
  assert (H : (50 <= calculate_quality_score metadata
                 (Some (detect_chapters None font pattern ai_service ai_out))
                 (List.length processed_images) <= 100)%Q).
  { apply quality_score_range. intros c Hc. injection Hc as <-.
    apply detect_chapters_total_confidence; assumption. }
  split; [exact H|].
  unfold should_trigger_fallback. simpl.
  case_qlt (calculate_quality_score metadata
              (Some (detect_chapters None font pattern ai_service ai_out))
              (List.length processed_images)) threshold; [lra | reflexivity].
Qed.

Lemma C10_witness :
  (50 <= quality_score (@run_custom_pipeline unit unit unit
          (Some (PdfParser.mkMetadata None None 3 false false (9 # 10), [], [tt]))
          (Some []) [tt] [] [] false [] (Some tt) (fun _ _ _ => true)) <= 100)%Q
  /\ should_trigger_fallback 50
       (@run_custom_pipeline unit unit unit
          (Some (PdfParser.mkMetadata None None 3 false false (9 # 10), [], [tt]))
          (Some []) [tt] [] [] false [] (Some tt) (fun _ _ _ => true)) = false.
Proof.
  apply (C10_custom_score_at_least_50 _ _ _ [] [] false [] _ _ 50
           (Forall_nil _) (Forall_nil _) (Forall_nil _)).
  - vm_compute. discriminate.
  - vm_compute. reflexivity.
Defined.

End QualityClaims.

(** ** Claims on the fallback decisions *)
Module FallbackClaims.
Import QFacts Pipeline.
Open Scope string_scope.
Open Scope Z_scope.

(** C3.  With Calibre available, [should_trigger_fallback] returns [true]
    exactly when the user requested it, the custom path failed, the custom
    score is below the threshold, or the complexity hints flag encryption,
    DRM or a complex layout; the first of these that holds gives the
    reason.  With threshold 60 and score 40 (no request, no error) it
    returns [true] with the below-threshold reason. *)
Theorem C3_should_trigger_fallback_priority (enable : bool) (threshold : Q) (threshold_str : string)
    (calibre_available : bool) (score : Q) (error_occurred user_requested : bool)
    (pdf_complexity : option CalibreFallback.Complexity) :
  CalibreFallback.is_available enable calibre_available = true ->
  let r := CalibreFallback.should_trigger_fallback enable threshold threshold_str calibre_available
             score error_occurred user_requested pdf_complexity in
  fst r = (user_requested || error_occurred || Qlt_bool score threshold
           || match pdf_complexity with
              | Some c => CalibreFallback.c_is_encrypted c || CalibreFallback.has_drm c
                          || CalibreFallback.complex_layout c
              | None => false
              end)
  /\ (user_requested = true -> snd r = "User explicitly requested Calibre conversion")
  /\ (user_requested = false -> error_occurred = true ->
      snd r = "Custom pipeline encountered unrecoverable error")
  /\ (user_requested = false -> error_occurred = false -> Qlt_bool score threshold = true ->
      snd r = "Custom quality score (" ++ Text.format_1f score ++ ") below threshold ("
              ++ threshold_str ++ ")")
  /\ (forall c, user_requested = false -> error_occurred = false ->
      Qlt_bool score threshold = false -> pdf_complexity = Some c ->
      (CalibreFallback.c_is_encrypted c = true -> snd r = "PDF is encrypted")
      /\ (CalibreFallback.c_is_encrypted c = false -> CalibreFallback.has_drm c = true ->
          snd r = "PDF has DRM protection")
      /\ (CalibreFallback.c_is_encrypted c = false -> CalibreFallback.has_drm c = false ->
          CalibreFallback.complex_layout c = true ->
          snd r = "PDF has complex layout requiring specialized handling"))
  /\ CalibreFallback.should_trigger_fallback true 60 "60" true 40 false false None
     = (true, "Custom quality score (40.0) below threshold (60)").
Proof.
  intros Havail r. unfold r, CalibreFallback.should_trigger_fallback. rewrite Havail. simpl.
  refine (conj _ (conj _ (conj _ (conj _ (conj _ _))))).
  - destruct user_requested, error_occurred, (Qlt_bool score threshold); try reflexivity.
    destruct pdf_complexity as [[e d l]|]; simpl; [destruct e, d, l|]; reflexivity.
  - intros ->. reflexivity.
  - intros -> ->. reflexivity.
  - intros -> -> ->. reflexivity.
  - intros c -> -> -> ->. simpl.
    split; [intros He|split; [intros He Hd|intros He Hd Hl]];
      rewrite ?He, ?Hd, ?Hl; reflexivity.
  - vm_compute. reflexivity.
Qed.

Lemma C3_witness :
  CalibreFallback.is_available true true = true
  /\ fst (CalibreFallback.should_trigger_fallback true 60 "60" true 40 false false None) = true.
Proof.
  split; [reflexivity|].
  destruct (C3_should_trigger_fallback_priority true 60 "60" true 40 false false None eq_refl)
    as [H _].
  rewrite H. vm_compute. reflexivity.
Defined.

(** C4 (as stated, refuted).  With the feature flag
    [ENHANCED_PDF_CONVERSION] off, an encrypted PDF goes to the legacy
    implementation, not to Calibre. *)
Lemma C4_counterexample :
  convert_pdf_to_epub false 60 false (mkResult true None 60 "legacy" ["legacy_conversion"])
    (Some (PdfParser.mkValidation true true)) (create_failure_result "EPUB generation failed")
    CalibreOk
  = (mkResult true None 60 "legacy" ["legacy_conversion"], [LegacyPath]).
Proof. reflexivity. Qed.

(** C4 (amended).  When [ENHANCED_PDF_CONVERSION] is on, for every PDF
    whose validation reports [is_encrypted] (or reports it invalid, or
    raises), [convert_pdf_to_epub] runs only the Calibre path and returns
    its result. *)
Theorem C4_encrypted_goes_to_calibre (threshold : Q) (use_calibre : bool)
    (legacy : ConversionResult) (validation : option PdfParser.Validation)
    (custom : ConversionResult) (calibre : CalibreOutcome) :
  (validation = None
   \/ exists v, validation = Some v
                /\ (PdfParser.is_valid v = false \/ PdfParser.v_is_encrypted v = true)) ->
  convert_pdf_to_epub true threshold use_calibre legacy validation custom calibre
  = (convert_with_calibre calibre, [CalibrePath]).
Proof.
  intros Hv. unfold convert_pdf_to_epub. simpl.
  assert (Hs : is_custom_pipeline_suitable validation = false).
  { destruct Hv as [->|(v & -> & [Hi|He])]; simpl; [reflexivity| |].
    - rewrite Hi. reflexivity.
    - destruct (PdfParser.is_valid v); simpl; [rewrite He|]; reflexivity. }
  rewrite Hs, orb_true_r. reflexivity.
Qed.

Lemma C4_witness :
  convert_pdf_to_epub true 60 false (mkResult true None 60 "legacy" ["legacy_conversion"])
    (Some (PdfParser.mkValidation true true)) (create_failure_result "EPUB generation failed")
    CalibreOk
  = (convert_with_calibre CalibreOk, [CalibrePath]).
Proof.
  apply C4_encrypted_goes_to_calibre.
  right. exists (PdfParser.mkValidation true true). split; [reflexivity | right; reflexivity].
Defined.

(** C5.  When the custom pipeline succeeded, the fallback was triggered
    and the Calibre conversion failed, [convert_pdf_to_epub] returns the
    custom result. *)
Theorem C5_keep_custom_when_fallback_fails (enhanced : bool) (threshold : Q) (use_calibre : bool)
    (legacy : ConversionResult) (validation : option PdfParser.Validation)
    (custom : ConversionResult) (calibre : CalibreOutcome) :
  snd (convert_pdf_to_epub enhanced threshold use_calibre legacy validation custom calibre)
    = [CustomPath; CalibrePath] ->
  success custom = true ->
  success (convert_with_calibre calibre) = false ->
  fst (convert_pdf_to_epub enhanced threshold use_calibre legacy validation custom calibre) = custom.
Proof.
  unfold convert_pdf_to_epub. intros Hpath Hsucc Hcal.
  destruct enhanced; simpl in *; [|discriminate].
  destruct (use_calibre || negb (is_custom_pipeline_suitable validation)); [discriminate|].
  rewrite Hsucc in *. simpl in *.
  destruct (should_trigger_fallback threshold custom); [|discriminate].
  rewrite Hcal. reflexivity.
Qed.

Lemma C5_witness :
  snd (convert_pdf_to_epub true 60 false (mkResult true None 60 "legacy" ["legacy_conversion"])
         (Some (PdfParser.mkValidation true false))
         (mkResult true None 55 "custom" stage_names) (CalibreFailed "timeout"))
    = [CustomPath; CalibrePath]
  /\ fst (convert_pdf_to_epub true 60 false (mkResult true None 60 "legacy" ["legacy_conversion"])
            (Some (PdfParser.mkValidation true false))
            (mkResult true None 55 "custom" stage_names) (CalibreFailed "timeout"))
     = mkResult true None 55 "custom" stage_names.
Proof.
  split; [vm_compute; reflexivity|].
  apply C5_keep_custom_when_fallback_fails; vm_compute; reflexivity.
Defined.

End FallbackClaims.

(** ** Claims on text extraction, scan probability and chapter creation *)
Module ExtractionClaims.
Import QFacts Pipeline EpubGenerator.
Open Scope string_scope.
Open Scope Z_scope.

(** C6 (as stated, refuted).  Two text blocks of 30 characters on the
    document's single page: the average per page is 60 characters, yet
    OCR is invoked, because the code averages over text blocks. *)
Lemma C6_counterexample :
  fst (@stage_2_content_extraction unit
         [PdfParser.mkBlock "abcdefghijklmnopqrstuvwxyzabcd" 0;
          PdfParser.mkBlock "abcdefghijklmnopqrstuvwxyzabcd" 0]
         (Some []) []) = true
  /\ PdfParser.total_text_length
       [PdfParser.mkBlock "abcdefghijklmnopqrstuvwxyzabcd" 0;
        PdfParser.mkBlock "abcdefghijklmnopqrstuvwxyzabcd" 0] = 60.
Proof. split; vm_compute; reflexivity. Qed.

Lemma stage_2_ocr_flag {Img : Type} (blocks : list PdfParser.TextBlock)
    (ocr_results : option (list string)) (processed : list Img) :
  fst (stage_2_content_extraction blocks ocr_results processed) = determine_ocr_need blocks.
Proof.
  unfold stage_2_content_extraction.
  destruct (determine_ocr_need blocks); [|reflexivity].
  destruct ocr_results as [rs|]; [|reflexivity].
  destruct (_ && _); reflexivity.
Qed.

(** C6 (amended).  OCR is invoked if and only if there are no text blocks
    or the average text length per text block is below 50 characters; and
    whenever OCR runs, returns, and its joined text is strictly longer
    than the joined extracted text, the OCR text becomes the stage's
    text. *)
Theorem C6_ocr_decision_and_replacement {Img : Type} (blocks : list PdfParser.TextBlock)
    (ocr_results : option (list string)) (processed : list Img) :
  (fst (stage_2_content_extraction blocks ocr_results processed) = true
   <-> blocks = []
       \/ (blocks <> []
           /\ (inject_Z (PdfParser.total_text_length blocks)
               / inject_Z (Z.of_nat (List.length blocks)) < 50)%Q))
  /\ (forall rs, ocr_results = Some rs ->
      fst (stage_2_content_extraction blocks ocr_results processed) = true ->
      (String.length (join_space (map PdfParser.text blocks))
       < String.length (join_space rs))%nat ->
      fst (snd (stage_2_content_extraction blocks ocr_results processed)) = join_space rs).
Proof.
  split.
  - rewrite stage_2_ocr_flag. unfold determine_ocr_need.
    destruct blocks as [|b rest].
    + split; [intros _; left; reflexivity | reflexivity].
    + rewrite Qlt_bool_true. split.
      * intros H. right. split; [discriminate | exact H].
      * intros [H|[_ H]]; [discriminate | exact H].
  - intros rs -> Hocr Hlen. rewrite stage_2_ocr_flag in Hocr.
    unfold stage_2_content_extraction. rewrite Hocr.
    destruct (String.eqb (join_space rs) "") eqn:E.
    + apply String.eqb_eq in E. rewrite E in Hlen. simpl in Hlen. lia.
    + apply Nat.ltb_lt in Hlen. rewrite Hlen. reflexivity.
Qed.

Lemma C6_witness :
  fst (@stage_2_content_extraction unit [PdfParser.mkBlock "short" 0]
         (Some ["recognised page text"]) []) = true
  /\ fst (snd (@stage_2_content_extraction unit [PdfParser.mkBlock "short" 0]
         (Some ["recognised page text"]) [])) = "recognised page text".
Proof.
  assert (Hrun : fst (@stage_2_content_extraction unit [PdfParser.mkBlock "short" 0]
                        (Some ["recognised page text"]) []) = true).
  { vm_compute. reflexivity. }
  split; [exact Hrun|].
  apply (proj2 (C6_ocr_decision_and_replacement [PdfParser.mkBlock "short" 0]
                  (Some ["recognised page text"]) []) ["recognised page text"] eq_refl Hrun).
  vm_compute. lia.
Defined.

(** C7.  For a document with at least one page, the scan probability is
    0.9, 0.6, 0.3 or 0.1 according as the average number of extracted
    characters per page is below 50, below 100, below 200, or more; so it
    never increases when that average increases. *)
Theorem C7_scan_probability_bands (blocks blocks' : list PdfParser.TextBlock)
    (page_count page_count' : Z) :
  0 < page_count -> 0 < page_count' ->
  let avg := (inject_Z (PdfParser.total_text_length blocks) / inject_Z page_count)%Q in
  let avg' := (inject_Z (PdfParser.total_text_length blocks') / inject_Z page_count')%Q in
  let p := PdfParser.calculate_scan_probability blocks page_count in
  let p' := PdfParser.calculate_scan_probability blocks' page_count' in
  ((avg < 50)%Q -> p = (9 # 10)%Q)
  /\ ((50 <= avg)%Q -> (avg < 100)%Q -> p = (6 # 10)%Q)
  /\ ((100 <= avg)%Q -> (avg < 200)%Q -> p = (3 # 10)%Q)
  /\ ((200 <= avg)%Q -> p = (1 # 10)%Q)
  /\ ((avg <= avg')%Q -> (p' <= p)%Q).
Proof.
  intros Hpc Hpc' avg avg' p p'.
  unfold p, p', PdfParser.calculate_scan_probability.
  rewrite (proj2 (Z.eqb_neq page_count 0)) by lia.
  rewrite (proj2 (Z.eqb_neq page_count' 0)) by lia.
  fold avg avg'.
  refine (conj _ (conj _ (conj _ (conj _ _)))); intros;
    case_qlt avg 50%Q; try case_qlt avg 100%Q; try case_qlt avg 200%Q;
    try solve [reflexivity | lra].
  all: case_qlt avg' 50%Q; try case_qlt avg' 100%Q; try case_qlt avg' 200%Q; lra.
Qed.

Lemma C7_witness :
  PdfParser.calculate_scan_probability [PdfParser.mkBlock "short" 0] 1 = (9 # 10)%Q
  /\ (PdfParser.calculate_scan_probability [PdfParser.mkBlock "short" 0] 1 <= (9 # 10))%Q.
Proof.
  destruct (C7_scan_probability_bands [PdfParser.mkBlock "short" 0] [PdfParser.mkBlock "short" 0]
              1 1 ltac:(lia) ltac:(lia)) as (H50 & _ & _ & _ & Hmono).
  split.
  - apply H50. vm_compute. reflexivity.
  - rewrite H50 at 1; [vm_compute; discriminate | vm_compute; reflexivity].
Defined.

Lemma chapters_from_no_blocks (i : nat) (bs : list ChapterDetector.ChapterBoundary) :
  bs <> [] -> chapters_from [] i bs = Raise (ValueError "max() arg is an empty sequence").
Proof.
  revert i. induction bs as [|b rest IH]; intros i Hne; [contradiction|].
  destruct rest as [|nb rest']; [reflexivity|].
  change (chapters_from [] i (b :: nb :: rest'))
    with (end_page <- Ok (ChapterDetector.page_num nb - 1) ;;
          let cid := "chapter_" ++ Text.pad3 (S i) in
          tl <- chapters_from [] (S i) (nb :: rest') ;;
          Ok (mkChapter cid (Some (ChapterDetector.title b))
                (join_space (flat_map (fun p => map PdfParser.text (blocks_of_page [] p))
                               (py_range (ChapterDetector.page_num b) (end_page + 1))))
                (cid ++ ".xhtml") (ChapterDetector.level b) (ChapterDetector.page_num b) :: tl)).
  unfold bind at 1. cbv beta iota zeta.
  rewrite IH by discriminate. reflexivity.
Qed.

Lemma sort_by_page_nonempty (bs : list ChapterDetector.ChapterBoundary) :
  bs <> [] -> ChapterDetector.sort_by_page bs <> [].
Proof.
  destruct bs as [|b rest]; [contradiction|]. intros _ H.
  assert (Hin : In b (ChapterDetector.sort_by_page (b :: rest))).
  { apply ChapterFacts.sort_by_page_in. left. reflexivity. }
  rewrite H in Hin. contradiction.
Qed.

(** C9.  With a non-empty boundary list and no text blocks,
    [create_chapters_from_text_blocks] raises [ValueError] ([max] over the
    empty page set); stage 4, which passes no text blocks, therefore
    returns its error value [(None, [])] for every chapter structure with
    at least one boundary. *)
Theorem C9_no_text_blocks_raise {EpubMetadata : Type}
    (bs : list ChapterDetector.ChapterBoundary) (meta_title : option string)
    (extracted_text : string) (cs : ChapterDetector.ChapterStructure)
    (metadata : PdfParser.PDFMetadata) (epub_metadata : option EpubMetadata) :
  bs <> [] ->
  ChapterDetector.chapters cs <> [] ->
  create_chapters_from_text_blocks [] bs meta_title
    = Raise (ValueError "max() arg is an empty sequence")
  /\ stage_4_ai_enhancement extracted_text (Some cs) metadata epub_metadata = (None, []).
Proof.
  intros Hbs Hcs. split.
  - unfold create_chapters_from_text_blocks. destruct bs as [|b rest]; [contradiction|].
    apply chapters_from_no_blocks, sort_by_page_nonempty. discriminate.
  - unfold stage_4_ai_enhancement. destruct epub_metadata as [em|]; [|reflexivity].
    unfold create_chapters_from_text_blocks.
    destruct (ChapterDetector.chapters cs) as [|b rest] eqn:E; [contradiction|].
    rewrite chapters_from_no_blocks by (apply sort_by_page_nonempty; discriminate).
    reflexivity.
Qed.

Lemma C9_witness :
  create_chapters_from_text_blocks []
    [ChapterDetector.mkBoundary 0 "Introduction" 60 "page_pattern" 1] (Some "Title")
    = Raise (ValueError "max() arg is an empty sequence")
  /\ @stage_4_ai_enhancement unit ""
       (Some (ChapterDetector.mkStructure
                [ChapterDetector.mkBoundary 0 "Introduction" 60 "page_pattern" 1] 60 ["g"]))
       (PdfParser.mkMetadata (Some "Title") None 1 false false (9 # 10)) (Some tt)
     = (None, []).
Proof.
  apply (C9_no_text_blocks_raise
           [ChapterDetector.mkBoundary 0 "Introduction" 60 "page_pattern" 1] (Some "Title") ""
           (ChapterDetector.mkStructure
              [ChapterDetector.mkBoundary 0 "Introduction" 60 "page_pattern" 1] 60 ["g"])
           (PdfParser.mkMetadata (Some "Title") None 1 false false (9 # 10)) (Some tt));
    simpl; discriminate.
Defined.

End ExtractionClaims.

(** ** The detectors *)
Module DetectorFacts.
Import Text ChapterDetector QFacts ChapterFacts.
Open Scope string_scope.

Lemma filter_some_in {A : Type} (x : A) (l : list (option A)) :
  In x (Detectors.filter_some l) <-> In (Some x) l.
Proof.
  induction l as [|[a|] r IH]; simpl; [tauto| |]; rewrite IH; intuition congruence.
Qed.

Lemma max_by_in {A : Type} (key : A -> Q) (x : A) (xs : list A) :
  In (Detectors.max_by key x xs) (x :: xs).
Proof.
  unfold Detectors.max_by. revert x. induction xs as [|y ys IH]; intros x; simpl; [auto|].
  destruct (Qlt_bool (key x) (key y)).
  - specialize (IH y). simpl in IH. tauto.
  - specialize (IH x). simpl in IH. tauto.
Qed.

Lemma existsb_Zeqb (p : Z) (ks : list Z) : existsb (Z.eqb p) ks = true <-> In p ks.
Proof.
  rewrite existsb_exists. split.
  - intros (k & Hk & E). apply Z.eqb_eq in E. subst. exact Hk.
  - intros H. exists p. split; [exact H | apply Z.eqb_refl].
Qed.

Lemma NoDup_snoc {A : Type} (l : list A) (x : A) : NoDup l -> ~ In x l -> NoDup (l ++ [x]).
Proof.
  induction l as [|a r IH]; intros Hl Hx; simpl.
  - repeat constructor. intros [].
  - inversion Hl; subst. constructor.
    + rewrite in_app_iff. simpl. intros [H|[H|[]]]; [contradiction|].
      apply Hx. left. symmetry. exact H.
    + apply IH; [assumption|]. intros H. apply Hx. right. exact H.
Qed.

Lemma page_keys_fold (blocks : list PdfLayout.TextBlock) (ks : list Z) :
  NoDup ks ->
  NoDup (fold_left (fun ks b => if existsb (Z.eqb (PdfLayout.page_num b)) ks then ks
                                else (ks ++ [PdfLayout.page_num b])%list) blocks ks)
  /\ (forall p, In p (fold_left (fun ks b => if existsb (Z.eqb (PdfLayout.page_num b)) ks then ks
                                             else (ks ++ [PdfLayout.page_num b])%list) blocks ks)
               <-> In p ks \/ exists b, In b blocks /\ PdfLayout.page_num b = p).
Proof.
  revert ks. induction blocks as [|b rest IH]; intros ks Hks; simpl.
  - split; [exact Hks|]. intros p. split; [tauto|]. intros [H|(b & [] & _)]; exact H.
  - destruct (existsb (Z.eqb (PdfLayout.page_num b)) ks) eqn:E.
    + apply existsb_Zeqb in E.
      destruct (IH ks Hks) as [Hn Hi]. split; [exact Hn|].
      intros p. rewrite Hi. split.
      * intros [H|(b' & Hb' & Hp)]; [left; exact H|]. right. exists b'. auto.
      * intros [H|(b' & [<-|Hb'] & Hp)]; [left; exact H| |].
        -- left. subst. exact E.
        -- right. exists b'. auto.
    + assert (Hn : ~ In (PdfLayout.page_num b) ks).
      { intros H. apply existsb_Zeqb in H. congruence. }
      destruct (IH (ks ++ [PdfLayout.page_num b])%list (NoDup_snoc _ _ Hks Hn)) as [Hn' Hi].
      split; [exact Hn'|].
      intros p. rewrite Hi, in_app_iff. simpl. split.
      * intros [[H|[H|[]]]|(b' & Hb' & Hp)].
        -- left. exact H.
        -- right. exists b. auto.
        -- right. exists b'. auto.
      * intros [H|(b' & [<-|Hb'] & Hp)].
        -- left. left. exact H.
        -- left. right. left. exact Hp.
        -- right. exists b'. auto.
Qed.

Lemma page_keys_nodup (blocks : list PdfLayout.TextBlock) : NoDup (Detectors.page_keys blocks).
Proof. apply (page_keys_fold blocks []). constructor. Qed.

Lemma page_keys_in (blocks : list PdfLayout.TextBlock) (p : Z) :
  In p (Detectors.page_keys blocks) <-> exists b, In b blocks /\ PdfLayout.page_num b = p.
Proof.
  unfold Detectors.page_keys. rewrite (proj2 (page_keys_fold blocks [] (NoDup_nil _)) p).
  simpl. tauto.
Qed.

Lemma insert_Z_in (x a : Z) (l : list Z) : In x (Detectors.insert_Z a l) <-> a = x \/ In x l.
Proof.
  induction l as [|y r IH]; simpl; [tauto|].
  destruct (Z.leb a y); simpl; [tauto|]. rewrite IH. tauto.
Qed.

Lemma insert_Z_sorted (a : Z) (l : list Z) :
  StronglySorted Z.lt l -> ~ In a l -> StronglySorted Z.lt (Detectors.insert_Z a l).
Proof.
  induction l as [|y r IH]; intros Hs Ha; simpl.
  - repeat constructor.
  - apply StronglySorted_inv in Hs as [Hr Hy].
    assert (Hay : a <> y) by (intros ->; apply Ha; left; reflexivity).
    destruct (Z.leb a y) eqn:E.
    + apply Z.leb_le in E. constructor; [constructor; assumption|].
      constructor; [lia|]. eapply Forall_impl; [|exact Hy]. intros; lia.
    + apply Z.leb_gt in E. constructor.
      * apply IH; [exact Hr|]. intros H. apply Ha. right. exact H.
      * apply Forall_forall. intros x Hx. apply insert_Z_in in Hx as [<-|Hx]; [lia|].
        rewrite Forall_forall in Hy. apply Hy, Hx.
Qed.

Lemma sort_Z_in (x : Z) (l : list Z) : In x (Detectors.sort_Z l) <-> In x l.
Proof.
  induction l as [|a r IH]; simpl; [tauto|]. rewrite insert_Z_in, IH. tauto.
Qed.

Lemma sort_Z_sorted (l : list Z) : NoDup l -> StronglySorted Z.lt (Detectors.sort_Z l).
Proof.
  induction l as [|a r IH]; intros Hn; simpl; [constructor|].
  inversion Hn; subst. apply insert_Z_sorted; [apply IH; assumption|].
  rewrite sort_Z_in. assumption.
Qed.

Lemma insert_Z_length (a : Z) (l : list Z) :
  List.length (Detectors.insert_Z a l) = S (List.length l).
Proof.
  induction l as [|y r IH]; simpl; [reflexivity|].
  destruct (Z.leb a y); simpl; [reflexivity|]. rewrite IH. reflexivity.
Qed.

Lemma sort_Z_length (l : list Z) : List.length (Detectors.sort_Z l) = List.length l.
Proof.
  induction l as [|a r IH]; simpl; [reflexivity|]. rewrite insert_Z_length, IH. reflexivity.
Qed.

(** A detector loop over page keys producing at most one boundary per
    key, on that key's page. *)
Definition one_per_page (f : Z -> list ChapterBoundary) : Prop :=
  forall p, (List.length (f p) <= 1)%nat /\ Forall (fun c => page_num c = p) (f p).

Lemma one_per_page_cases (f : Z -> list ChapterBoundary) (p : Z) :
  one_per_page f -> f p = [] \/ exists c, f p = [c] /\ page_num c = p.
Proof.
  intros H. destruct (H p) as [Hl Hf].
  destruct (f p) as [|c [|d r]]; simpl in Hl; [left; reflexivity| |lia].
  right. exists c. split; [reflexivity|]. inversion Hf; assumption.
Qed.

Lemma keyed_flat_map_in (f : Z -> list ChapterBoundary) (keys : list Z) (c : ChapterBoundary) :
  one_per_page f -> In c (flat_map f keys) -> In (page_num c) keys.
Proof.
  intros Hf Hc. apply in_flat_map in Hc as (p & Hp & Hc).
  destruct (Hf p) as [_ Hall]. rewrite Forall_forall in Hall.
  rewrite (Hall c Hc). exact Hp.
Qed.

Lemma keyed_flat_map_nodup (f : Z -> list ChapterBoundary) (keys : list Z) :
  NoDup keys -> one_per_page f -> NoDup (map page_num (flat_map f keys)).
Proof.
  intros Hn Hf. induction keys as [|p r IH]; simpl; [constructor|].
  inversion Hn; subst.
  destruct (one_per_page_cases f p Hf) as [E|(c & E & Hc)]; rewrite E; simpl; [auto|].
  constructor; [|auto].
  intros Hin. apply in_map_iff in Hin as (d & Hd & Hin).
  apply (keyed_flat_map_in f r d Hf) in Hin. congruence.
Qed.

Lemma keyed_flat_map_sorted (f : Z -> list ChapterBoundary) (keys : list Z) :
  StronglySorted Z.lt keys -> one_per_page f ->
  StronglySorted (fun a b => page_num a < page_num b) (flat_map f keys).
Proof.
  intros Hs Hf. induction keys as [|p r IH]; simpl; [constructor|].
  apply StronglySorted_inv in Hs as [Hr Hp].
  destruct (one_per_page_cases f p Hf) as [E|(c & E & Hc)]; rewrite E; simpl; [auto|].
  constructor; [auto|].
  apply Forall_forall. intros d Hd. apply (keyed_flat_map_in f r d Hf) in Hd.
  rewrite Forall_forall in Hp. specialize (Hp _ Hd). lia.
Qed.

(** [_detect_by_font_analysis] *)
Lemma font_heading_some (avg mx thr q : Q) (p : Z) (b : PdfLayout.TextBlock) (c : ChapterBoundary) :
  Detectors.font_heading avg mx thr p b = Some (q, c) ->
  q = PdfLayout.font_size b
  /\ c = mkBoundary p (strip (PdfLayout.text b))
           (calculate_font_confidence (PdfLayout.font_size b) avg mx (PdfLayout.is_bold b))
           "font_analysis" 1
  /\ (thr <= PdfLayout.font_size b)%Q /\ PdfLayout.is_bold b = true
  /\ (2 < String.length (strip (PdfLayout.text b)))%nat.
Proof.
  unfold Detectors.font_heading.
  destruct (Qle_bool thr (PdfLayout.font_size b)) eqn:E1; [|discriminate].
  destruct (PdfLayout.is_bold b) eqn:E2; [|discriminate].
  destruct (Nat.ltb 2 _) eqn:E3; [|discriminate].
  destruct (Detectors.is_likely_heading _); [|discriminate].
  simpl. intros H. injection H as <- <-.
  apply Qle_bool_iff in E1. apply Nat.ltb_lt in E3. auto 6.
Qed.

Lemma font_page_one (avg mx thr : Q) (blocks : list PdfLayout.TextBlock) :
  one_per_page (fun p =>
    match Detectors.filter_some (map (Detectors.font_heading avg mx thr p) (Detectors.page_blocks blocks p)) with
    | [] => []
    | h :: hs => [snd (Detectors.max_by fst h hs)]
    end).
Proof.
  intros p. destruct (Detectors.filter_some _) as [|h hs] eqn:E; simpl; [split; [lia | constructor]|].
  split; [lia|]. constructor; [|constructor].
  assert (Hin := max_by_in fst h hs). rewrite <- E in Hin.
  apply filter_some_in, in_map_iff in Hin as (b & Hb & _).
  destruct (Detectors.max_by fst h hs) as [q c]. simpl.
  apply font_heading_some in Hb as (_ & -> & _). reflexivity.
Qed.

Lemma font_analysis_origin (blocks : list PdfLayout.TextBlock) (c : ChapterBoundary) :
  In c (Detectors.detect_by_font_analysis blocks) ->
  exists avg mx b, In b blocks /\ PdfLayout.page_num b = page_num c
    /\ Detectors.font_heading avg mx (avg + (mx - avg) * (3 # 10))%Q (PdfLayout.page_num b) b
       = Some (PdfLayout.font_size b, c).
Proof.
  unfold Detectors.detect_by_font_analysis.
  destruct blocks as [|b0 bs]; [contradiction|].
  destruct (Detectors.font_sizes (b0 :: bs)) as [|f0 fr]; [contradiction|].
  intros Hc. apply in_flat_map in Hc as (p & _ & Hc).
  destruct (Detectors.filter_some _) as [|h hs] eqn:E; [contradiction|].
  destruct Hc as [<-|[]].
  assert (Hin := max_by_in fst h hs). rewrite <- E in Hin.
  apply filter_some_in, in_map_iff in Hin as (b & Hb & Hbin).
  unfold Detectors.page_blocks in Hbin. apply filter_In in Hbin as [Hbin Hp].
  apply Z.eqb_eq in Hp. subst p.
  destruct (Detectors.max_by fst h hs) as [q c] eqn:Em. simpl.
  pose proof Hb as Hb'. apply font_heading_some in Hb' as (-> & -> & _).
  do 3 eexists. split; [exact Hbin|]. split; [reflexivity|]. exact Hb.
Qed.

Lemma font_analysis_one (blocks : list PdfLayout.TextBlock) :
  exists f keys, NoDup keys /\ one_per_page f /\ Detectors.detect_by_font_analysis blocks = flat_map f keys.
Proof.
  unfold Detectors.detect_by_font_analysis.
  destruct blocks as [|b0 bs].
  { exists (fun _ => []), []. split; [constructor|]. split; [|reflexivity].
    intros p. simpl. split; [lia | constructor]. }
  destruct (Detectors.font_sizes (b0 :: bs)) as [|f0 fr].
  { exists (fun _ => []), []. split; [constructor|]. split; [|reflexivity].
    intros p. simpl. split; [lia | constructor]. }
  eexists. exists (Detectors.page_keys (b0 :: bs)). split; [apply page_keys_nodup|].
  split; [apply font_page_one | reflexivity].
Qed.

Lemma font_confidence_bounds (fs avg mx : Q) :
  (avg + (mx - avg) * (3 # 10) <= fs)%Q ->
  (60 <= calculate_font_confidence fs avg mx true <= 100)%Q.
Proof.
  intros Hthr. unfold calculate_font_confidence, clamp100, py_max, py_min.
  cbv beta iota zeta.
  case_qlt avg mx.
  - assert (Hr : (3 # 10 <= (fs - avg) / (mx - avg))%Q).
    { apply Qle_shift_div_l; lra. }
    set (r := ((fs - avg) / (mx - avg))%Q) in *. clearbody r.
    case_qlt (50 + r * 40 + 10)%Q 100%Q.
    + case_qlt 0%Q (50 + r * 40 + 10)%Q; lra.
    + case_qlt 0%Q 100%Q; lra.
  - case_qlt (50 + 0 * 40 + 10)%Q 100%Q.
    + case_qlt 0%Q (50 + 0 * 40 + 10)%Q; lra.
    + lra.
Qed.

Lemma font_analysis_conf (blocks : list PdfLayout.TextBlock) :
  Forall conf_ok (Detectors.detect_by_font_analysis blocks).
Proof.
  apply Forall_forall. intros c Hc.
  apply font_analysis_origin in Hc as (avg & mx & b & _ & _ & Hb).
  apply font_heading_some in Hb as (_ & -> & _).
  apply clamp100_range.
Qed.

(** [_detect_by_page_patterns] *)
Definition pattern_at (blocks : list PdfLayout.TextBlock) (p : Z) : list ChapterBoundary :=
  match filter (fun b => Qlt_bool (PdfLayout.y0 b) 200) (Detectors.page_blocks blocks p) with
  | [] => []
  | b0 :: bs =>
      let top_block := Detectors.max_by PdfLayout.font_size b0 bs in
      if Qlt_bool 14 (PdfLayout.font_size top_block) && Detectors.is_likely_heading (PdfLayout.text top_block) then
        [mkBoundary p (strip (PdfLayout.text top_block)) 60 "page_pattern" 1]
      else []
  end.

Lemma page_patterns_unfold (blocks : list PdfLayout.TextBlock) :
  Detectors.detect_by_page_patterns blocks
  = flat_map (pattern_at blocks) (Detectors.sort_Z (Detectors.page_keys blocks)).
Proof. reflexivity. Qed.

Lemma pattern_at_one (blocks : list PdfLayout.TextBlock) : one_per_page (pattern_at blocks).
Proof.
  intros p. unfold pattern_at.
  destruct (filter _ _) as [|b0 bs]; [simpl; split; [lia | constructor]|].
  destruct (_ && _); simpl; (split; [lia|]); repeat constructor.
Qed.

Lemma pattern_at_origin (blocks : list PdfLayout.TextBlock) (p : Z) (c : ChapterBoundary) :
  In c (pattern_at blocks p) ->
  exists b, In b blocks /\ PdfLayout.page_num b = p /\ (PdfLayout.y0 b < 200)%Q
    /\ (14 < PdfLayout.font_size b)%Q
    /\ c = mkBoundary p (strip (PdfLayout.text b)) 60 "page_pattern" 1.
Proof.
  unfold pattern_at.
  destruct (filter _ _) as [|b0 bs] eqn:E; [contradiction|].
  destruct (Qlt_bool 14 _) eqn:E14; [|contradiction].
  destruct (Detectors.is_likely_heading _); [|contradiction].
  intros [<-|[]].
  assert (Hin := max_by_in PdfLayout.font_size b0 bs). rewrite <- E in Hin.
  apply filter_In in Hin as [Hin Hy]. unfold Detectors.page_blocks in Hin.
  apply filter_In in Hin as [Hin Hp]. apply Z.eqb_eq in Hp.
  apply Qlt_bool_true in Hy. apply Qlt_bool_true in E14.
  eexists. split; [exact Hin|]. split; [exact Hp|]. auto.
Qed.

Lemma page_patterns_conf (blocks : list PdfLayout.TextBlock) :
  Forall conf_ok (Detectors.detect_by_page_patterns blocks).
Proof.
  rewrite page_patterns_unfold. apply Forall_forall. intros c Hc.
  apply in_flat_map in Hc as (p & _ & Hc).
  apply pattern_at_origin in Hc as (b & _ & _ & _ & _ & ->).
  unfold conf_ok. simpl. lra.
Qed.

(** [_parse_ai_response] and [_detect_by_ai_analysis] *)
Lemma parse_ai_response_origin (resp : string) (blocks : list PdfLayout.TextBlock) (p : Z) (t : string) :
  In (p, t) (Detectors.parse_ai_response resp blocks) ->
  (exists b, In b blocks /\ PdfLayout.page_num b = p) /\ (2 < String.length t)%nat.
Proof.
  unfold Detectors.parse_ai_response. intros H.
  apply filter_some_in, in_map_iff in H as (line & H & _).
  destruct (Detectors.parse_ai_line _) as [[g1 g2]|]; [|discriminate].
  cbv zeta in H.
  destruct (existsb (Z.eqb (PyStr.digits_value g1 - 1)) (Detectors.page_keys blocks)) eqn:Ek;
    [|discriminate].
  destruct (Detectors.page_texts blocks _); [discriminate|].
  simpl in H.
  match type of H with
  | (if ?c then _ else _) = _ => destruct c eqn:Et; [|discriminate]
  end.
  injection H as <- <-.
  apply andb_true_iff in Et as [_ Hl]. apply Nat.ltb_lt in Hl.
  apply existsb_Zeqb, page_keys_in in Ek. split; assumption.
Qed.

Lemma ai_analysis_origin (ai : bool) (blocks : list PdfLayout.TextBlock) (resp : option string)
    (c : ChapterBoundary) :
  In c (Detectors.detect_by_ai_analysis ai blocks resp) ->
  c = mkBoundary (page_num c) (title c) 70 "ai_analysis" 1
  /\ (exists b, In b blocks /\ PdfLayout.page_num b = page_num c)
  /\ (2 < String.length (title c))%nat.
Proof.
  unfold Detectors.detect_by_ai_analysis.
  destruct ai; [|contradiction]. simpl.
  destruct blocks as [|b0 bs]; [contradiction|].
  destruct (Nat.ltb _ 3); [contradiction|].
  destruct resp as [resp|]; [|contradiction].
  intros Hc. apply in_map_iff in Hc as ([p t] & <- & Hin).
  apply parse_ai_response_origin in Hin. simpl. auto.
Qed.

Lemma ai_analysis_conf (ai : bool) (blocks : list PdfLayout.TextBlock) (resp : option string) :
  Forall conf_ok (Detectors.detect_by_ai_analysis ai blocks resp).
Proof.
  apply Forall_forall. intros c Hc. apply ai_analysis_origin in Hc as (-> & _).
  unfold conf_ok. simpl. lra.
Qed.

End DetectorFacts.

(** ** String facts *)
Module TextFacts.
Import Text.

Lemma chars_of_chars (l : list ascii) : chars (of_chars l) = l.
Proof. apply list_ascii_of_string_of_list_ascii. Qed.

Lemma of_chars_chars (s : string) : of_chars (chars s) = s.
Proof. apply string_of_list_ascii_of_string. Qed.

Lemma drop_while_head (p : ascii -> bool) (l : list ascii) :
  drop_while p l = [] \/ exists c r, drop_while p l = c :: r /\ p c = false.
Proof.
  induction l as [|c r IH]; simpl; [left; reflexivity|].
  destruct (p c) eqn:E; [exact IH|]. right. exists c, r. auto.
Qed.

Lemma drop_while_idem (p : ascii -> bool) (l : list ascii) :
  drop_while p (drop_while p l) = drop_while p l.
Proof.
  destruct (drop_while_head p l) as [E|(c & r & E & Hc)]; rewrite E; simpl; [reflexivity|].
  rewrite Hc. reflexivity.
Qed.

Lemma drop_while_suffix (p : ascii -> bool) (l : list ascii) :
  exists pre, l = (pre ++ drop_while p l)%list.
Proof.
  induction l as [|c r IH]; simpl; [exists []; reflexivity|].
  destruct (p c); [|exists []; reflexivity].
  destruct IH as (pre & E). exists (c :: pre). simpl. congruence.
Qed.

Lemma strip_by_idem (p : ascii -> bool) (s : string) :
  strip_by p (strip_by p s) = strip_by p s.
Proof.
  unfold strip_by. rewrite chars_of_chars.
  set (L := drop_while p (chars s)).
  set (Y := drop_while p (rev L)).
  assert (HY : drop_while p (rev Y) = rev Y).
  { destruct (rev Y) as [|d e] eqn:ErY; [reflexivity|].
    destruct (drop_while_suffix p (rev L)) as (pre & Epre). fold Y in Epre.
    assert (EL : L = (rev Y ++ rev pre)%list).
    { rewrite <- rev_app_distr, <- Epre, rev_involutive. reflexivity. }
    rewrite ErY in EL. simpl in EL.
    destruct (drop_while_head p (chars s)) as [E0|(c & r & E0 & Hc)]; fold L in E0.
    - rewrite E0 in EL. discriminate.
    - rewrite E0 in EL. injection EL as <- _. simpl. rewrite Hc. reflexivity. }
  rewrite HY, rev_involutive. unfold Y. rewrite drop_while_idem. reflexivity.
Qed.

Lemma strip_idem (s : string) : strip (strip s) = strip s.
Proof. apply strip_by_idem. Qed.

End TextFacts.

(** ** Text blocks of a page *)
Module LayoutFacts.
Import Text PdfLayout.
Open Scope string_scope.

Definition numbered (pn : Z) (i : nat) (b : TextBlock) : Prop :=
  block_id b = Z.of_nat i /\ page_num b = pn /\ text b <> "" /\ strip (text b) = text b.

Lemma extract_go_numbered (pn : Z) (ss : list Span) (acc : list TextBlock) :
  (forall i b, nth_error acc i = Some b -> numbered pn i b) ->
  forall i b, nth_error (extract_go pn acc ss) i = Some b -> numbered pn i b.
Proof.
  revert acc. induction ss as [|s r IH]; intros acc Hacc; simpl; [exact Hacc|].
  destruct (String.eqb (strip (get_or "" (span_text s))) "") eqn:Et; [apply IH; exact Hacc|].
  destruct (get_or [0; 0; 0; 0]%Q (span_bbox s)) as [|a [|b1 [|c [|d rest]]]]; simpl;
    try exact Hacc.
  apply IH. intros i b Hb.
  destruct (Nat.lt_ge_cases i (List.length acc)) as [Hi|Hi].
  - rewrite nth_error_app1 in Hb by exact Hi. apply Hacc, Hb.
  - rewrite nth_error_app2 in Hb by exact Hi.
    destruct (i - List.length acc)%nat as [|k] eqn:Ek; simpl in Hb.
    + injection Hb as <-. unfold numbered. simpl.
      apply String.eqb_neq in Et.
      repeat split; [f_equal; lia | exact Et | apply TextFacts.strip_idem].
    + destruct k; discriminate.
Qed.

End LayoutFacts.

(** ** Output of the EPUB generator *)
Module WriterFacts.
Import Text EpubGenerator EpubWriter.
Open Scope string_scope.

Definition html_special (c : ascii) : Prop :=
  c = "<"%char \/ c = ">"%char \/ c = "034"%char \/ c = "'"%char.

Lemma escape_char_safe (d c : ascii) : In c (escape_char d) -> ~ html_special c.
Proof.
  unfold escape_char, html_special.
  destruct (Ascii.eqb_spec d "&");
    [simpl; intros H Hs; destruct Hs as [ -> | [ -> | [ -> | -> ] ] ]; intuition discriminate|].
  destruct (Ascii.eqb_spec d "034");
    [simpl; intros H Hs; destruct Hs as [ -> | [ -> | [ -> | -> ] ] ]; intuition discriminate|].
  destruct (Ascii.eqb_spec d "'");
    [simpl; intros H Hs; destruct Hs as [ -> | [ -> | [ -> | -> ] ] ]; intuition discriminate|].
  destruct (Ascii.eqb_spec d ">");
    [simpl; intros H Hs; destruct Hs as [ -> | [ -> | [ -> | -> ] ] ]; intuition discriminate|].
  destruct (Ascii.eqb_spec d "<");
    [simpl; intros H Hs; destruct Hs as [ -> | [ -> | [ -> | -> ] ] ]; intuition discriminate|].
  intros [<-|[]] Hs. intuition.
Qed.

Lemma escape_char_plain (d : ascii) :
  ~ In d ["&"; "034"; "<"; ">"; "'"]%char -> escape_char d = [d].
Proof.
  intros Hd. unfold escape_char.
  destruct (Ascii.eqb_spec d "&"); [subst; simpl in Hd; tauto|].
  destruct (Ascii.eqb_spec d "034"); [subst; simpl in Hd; tauto|].
  destruct (Ascii.eqb_spec d "'"); [subst; simpl in Hd; tauto|].
  destruct (Ascii.eqb_spec d ">"); [subst; simpl in Hd; tauto|].
  destruct (Ascii.eqb_spec d "<"); [subst; simpl in Hd; tauto|].
  reflexivity.
Qed.

Lemma flat_map_escape_plain (l : list ascii) :
  (forall c, In c l -> ~ In c ["&"; "034"; "<"; ">"; "'"]%char) -> flat_map escape_char l = l.
Proof.
  induction l as [|d r IH]; intros H; simpl; [reflexivity|].
  rewrite escape_char_plain by (apply H; left; reflexivity).
  simpl. f_equal. apply IH. intros c Hc. apply H. right. exact Hc.
Qed.

End WriterFacts.

(** ** The pipeline *)
Module PipelineFacts.
Import Text EpubGenerator Pipeline PipelineFull QFacts ChapterFacts QualityFacts.
Open Scope string_scope.

Lemma stage_4_some_cases {EpubMetadata : Type} (extracted_text : string)
    (cs : ChapterDetector.ChapterStructure) (metadata : PdfParser.PDFMetadata)
    (em : option EpubMetadata) :
  stage_4_ai_enhancement extracted_text (Some cs) metadata em = (None, [])
  \/ exists m, em = Some m /\ ChapterDetector.chapters cs = []
     /\ stage_4_ai_enhancement extracted_text (Some cs) metadata em
        = (Some m, [mkChapter "chapter_001" (PdfParser.title metadata) "" "chapter_001.xhtml" 1 0]).
Proof.
  unfold stage_4_ai_enhancement. destruct em as [m|]; [|left; reflexivity].
  unfold create_chapters_from_text_blocks.
  destruct (ChapterDetector.chapters cs) as [|b rest] eqn:E.
  - right. exists m. auto.
  - left. rewrite ExtractionClaims.chapters_from_no_blocks
      by (apply ExtractionClaims.sort_by_page_nonempty; discriminate).
    reflexivity.
Qed.

Lemma stage_4_ignores_text {EpubMetadata : Type} (t t' : string)
    (cs : ChapterDetector.ChapterStructure) (metadata : PdfParser.PDFMetadata)
    (em : option EpubMetadata) :
  stage_4_ai_enhancement t (Some cs) metadata em = stage_4_ai_enhancement t' (Some cs) metadata em.
Proof. reflexivity. Qed.

Lemma stage_2_ocr_returns {Img : Type} (blocks : list PdfParser.TextBlock) (rs : list string)
    (processed : list Img) :
  exists o t, stage_2_content_extraction blocks (Some rs) processed = (o, (t, processed)).
Proof.
  unfold stage_2_content_extraction.
  destruct (determine_ocr_need blocks); [|eauto].
  destruct (_ && _); eauto.
Qed.

Lemma run_custom_pipeline_failure {RawImg Img EpubMetadata : Type}
    (stage1 : option (PdfParser.PDFMetadata * list PdfParser.TextBlock * list RawImg))
    (ocr_results : option (list string)) (processed : list Img)
    (font pattern : list ChapterDetector.ChapterBoundary) (ai_service : bool)
    (ai_out : list ChapterDetector.ChapterBoundary) (epub_metadata : option EpubMetadata)
    (generate_epub : option EpubMetadata -> list EpubChapter -> list Img -> bool) :
  success (run_custom_pipeline stage1 ocr_results processed font pattern ai_service ai_out
             epub_metadata generate_epub) = false ->
  exists msg, run_custom_pipeline stage1 ocr_results processed font pattern ai_service ai_out
                epub_metadata generate_epub = create_failure_result msg.
Proof.
  unfold run_custom_pipeline.
  destruct stage1 as [[[metadata blocks] raw]|]; [|eauto].
  destruct (stage_2_content_extraction blocks ocr_results processed) as [o [t imgs]].
  destruct (stage_4_ai_enhancement _ _ _ _) as [em chs].
  destruct (generate_epub em chs imgs); simpl; [discriminate | eauto].
Qed.

Lemma run_custom_pipeline_success {RawImg Img EpubMetadata : Type}
    (stage1 : option (PdfParser.PDFMetadata * list PdfParser.TextBlock * list RawImg))
    (ocr_results : option (list string)) (processed : list Img)
    (font pattern : list ChapterDetector.ChapterBoundary) (ai_service : bool)
    (ai_out : list ChapterDetector.ChapterBoundary) (epub_metadata : option EpubMetadata)
    (generate_epub : option EpubMetadata -> list EpubChapter -> list Img -> bool) :
  let r := run_custom_pipeline stage1 ocr_results processed font pattern ai_service ai_out
             epub_metadata generate_epub in
  success r = true ->
  error_message r = None
  /\ exists metadata n, quality_score r
       = calculate_quality_score metadata
           (Some (ChapterDetector.detect_chapters None font pattern ai_service ai_out)) n.
Proof.
  intros r. unfold r, run_custom_pipeline.
  destruct stage1 as [[[metadata blocks] raw]|].
  - destruct (stage_2_content_extraction blocks ocr_results processed) as [o [t imgs]].
    destruct (stage_4_ai_enhancement _ _ _ _) as [em chs].
    destruct (generate_epub em chs imgs); simpl; [|discriminate].
    intros _. split; [reflexivity|]. eauto.
  - simpl. discriminate.
Qed.

Lemma legacy_shape (o : LegacyOutcome) :
  (success (fallback_to_old_implementation o) = true
   /\ fallback_to_old_implementation o = mkResult true None 60 "legacy" ["legacy_conversion"])
  \/ exists msg, fallback_to_old_implementation o = create_failure_result msg.
Proof.
  unfold fallback_to_old_implementation.
  destruct o as [status message|e]; [|eauto].
  destruct (match status with Some s => String.eqb s "completed" | None => false end); eauto.
Qed.

Lemma calibre_shape (c : CalibreOutcome) :
  (c = CalibreOk /\ convert_with_calibre c = mkResult true None 75 "calibre" ["calibre_fallback"])
  \/ (success (convert_with_calibre c) = false
      /\ exists msg, convert_with_calibre c = create_failure_result msg).
Proof. destruct c; simpl; eauto. Qed.

Lemma full_detectors_conf (blocks : list PdfLayout.TextBlock) (ai_service : bool)
    (response : option string) :
  Forall conf_ok (Detectors.detect_by_font_analysis blocks)
  /\ Forall conf_ok (Detectors.detect_by_page_patterns blocks)
  /\ Forall conf_ok (Detectors.detect_by_ai_analysis ai_service blocks response).
Proof.
  split; [apply DetectorFacts.font_analysis_conf|].
  split; [apply DetectorFacts.page_patterns_conf | apply DetectorFacts.ai_analysis_conf].
Qed.

Lemma run_custom_pipeline_full_success {RawImg Img EpubMetadata : Type}
    (stage1 : option (PdfParser.PDFMetadata * list PdfLayout.TextBlock * list RawImg))
    (ocr_results : option (list string)) (processed : list Img) (ai_service : bool)
    (response : option string) (epub_metadata : option EpubMetadata)
    (write : EpubMetadata -> list EpubChapter -> list Img -> bool) :
  let r := run_custom_pipeline_full stage1 ocr_results processed ai_service response epub_metadata write in
  success r = true -> error_message r = None /\ (50 <= quality_score r <= 100)%Q.
Proof.
  intros r. unfold r, run_custom_pipeline_full.
  destruct stage1 as [[[metadata blocks] raw]|].
  - intros Hs. apply run_custom_pipeline_success in Hs as (He & metadata' & n & Hq).
    split; [exact He|]. rewrite Hq. apply quality_score_range.
    intros c Hc. injection Hc as <-.
    destruct (full_detectors_conf blocks ai_service response) as (Hf & Hp & Ha).
    apply detect_chapters_total_confidence; assumption.
  - simpl. discriminate.
Qed.

End PipelineFacts.

(** ** Calibre *)
Module CalibreFacts.
Import Text CalibreTools.
Open Scope string_scope.

Lemma dict_get_set (k k' v : string) (d : list (string * string)) :
  dict_get k (dict_set k' v d) = if String.eqb k k' then Some v else dict_get k d.
Proof.
  induction d as [|[k1 v1] r IH]; simpl.
  - destruct (String.eqb k k'); reflexivity.
  - destruct (String.eqb k' k1) eqn:E1.
    + apply String.eqb_eq in E1. subst k1. simpl.
      destruct (String.eqb k k'); reflexivity.
    + simpl. destruct (String.eqb k k1) eqn:E2.
      * apply String.eqb_eq in E2. subst k1.
        rewrite String.eqb_sym, E1. reflexivity.
      * exact IH.
Qed.

Lemma dict_get_app (k : string) (l1 l2 : list (string * string)) :
  dict_get k (l1 ++ l2)%list = match dict_get k l1 with Some v => Some v | None => dict_get k l2 end.
Proof.
  induction l1 as [|[k1 v1] r IH]; simpl; [reflexivity|].
  destruct (String.eqb k k1); [reflexivity | exact IH].
Qed.

Lemma dict_get_update (k : string) (d opts : list (string * string)) :
  dict_get k (dict_update d opts)
  = match dict_get k (rev opts) with Some v => Some v | None => dict_get k d end.
Proof.
  unfold dict_update. revert d.
  induction opts as [|[k1 v1] r IH]; intros d; simpl; [reflexivity|].
  rewrite IH, dict_get_app. simpl. rewrite dict_get_set.
  destruct (dict_get k (rev r)); [reflexivity|].
  destruct (String.eqb k k1); reflexivity.
Qed.

Lemma existsb_String_eqb (k : string) (l : list string) :
  existsb (String.eqb k) l = true <-> In k l.
Proof.
  rewrite existsb_exists. split.
  - intros (x & Hx & E). apply String.eqb_eq in E. subst. exact Hx.
  - intros H. exists k. split; [exact H | apply String.eqb_refl].
Qed.

Lemma dict_set_keys (k v : string) (d : list (string * string)) :
  map fst (dict_set k v d)
  = if existsb (String.eqb k) (map fst d) then map fst d else (map fst d ++ [k])%list.
Proof.
  induction d as [|[k1 v1] r IH]; simpl; [reflexivity|].
  destruct (String.eqb k k1) eqn:E; simpl; [reflexivity|].
  rewrite IH. destruct (existsb (String.eqb k) (map fst r)); reflexivity.
Qed.

Lemma dict_update_nodup (d opts : list (string * string)) :
  NoDup (map fst d) -> NoDup (map fst (dict_update d opts)).
Proof.
  unfold dict_update. revert d.
  induction opts as [|[k1 v1] r IH]; intros d Hd; simpl; [exact Hd|].
  apply IH. rewrite dict_set_keys.
  destruct (existsb (String.eqb k1) (map fst d)) eqn:E; [exact Hd|].
  apply DetectorFacts.NoDup_snoc; [exact Hd|].
  intros H. apply existsb_String_eqb in H. congruence.
Qed.

Lemma default_options_nodup (chinese : bool) : NoDup (map fst (default_options chinese)).
Proof.
  simpl. repeat constructor; simpl; intuition discriminate.
Qed.

Definition mentions_image (l : list ascii) : bool :=
  has "image" (map lower_char l) || has "extracting" (map lower_char l).

Definition mentions_metadata (l : list ascii) : bool := has "metadata" (map lower_char l).

Lemma analyze_images (ls : list (list ascii)) (ind : Indicators) :
  0 <= images_extracted ind ->
  (0 < images_extracted (fold_left analyze_line ls ind)
   <-> 0 < images_extracted ind \/ existsb mentions_image ls = true).
Proof.
  revert ind. induction ls as [|l r IH]; intros ind Hi; simpl; [intuition discriminate|].
  assert (Hstep : images_extracted (analyze_line ind l)
                  = images_extracted ind + (if mentions_image l then 1 else 0)).
  { unfold analyze_line, mentions_image. simpl.
    destruct (_ || _); simpl; lia. }
  rewrite IH by (rewrite Hstep; destruct (mentions_image l); lia).
  rewrite Hstep, orb_true_iff.
  destruct (mentions_image l); simpl; intuition (try lia; try discriminate).
Qed.

Lemma analyze_metadata (ls : list (list ascii)) (ind : Indicators) :
  metadata_found (fold_left analyze_line ls ind)
  = metadata_found ind || existsb mentions_metadata ls.
Proof.
  revert ind. induction ls as [|l r IH]; intros ind; simpl; [rewrite orb_false_r; reflexivity|].
  rewrite IH. unfold analyze_line, mentions_metadata. simpl.
  destruct (has "metadata" (map lower_char l)); simpl;
    [rewrite orb_true_r; reflexivity | reflexivity].
Qed.

End CalibreFacts.

(** ** Outcomes of the whole conversion *)
Module ConversionFacts.
Import Text EpubGenerator Pipeline PipelineFull QFacts ChapterFacts.
Open Scope string_scope.

Lemma bookmark_confidence_range (t : string) (lvl : Z) :
  (75 <= ChapterDetector.calculate_bookmark_confidence t lvl <= 95)%Q.
Proof.
  unfold ChapterDetector.calculate_bookmark_confidence, ChapterDetector.clamp100,
    ChapterDetector.py_max, ChapterDetector.py_min.
  destruct (ChapterDetector.chapter_indicator t), (Nat.ltb (String.length t) 5), (Z.ltb 2 lvl);
    split; apply Qle_bool_imp_le; vm_compute; reflexivity.
Qed.

Lemma custom_generate_success {RawImg Img EpubMetadata : Type}
    (stage1 : option (PdfParser.PDFMetadata * list PdfParser.TextBlock * list RawImg))
    (ocr_results : option (list string)) (processed : list Img)
    (font pattern : list ChapterDetector.ChapterBoundary) (ai_service : bool)
    (ai_out : list ChapterDetector.ChapterBoundary) (epub_metadata : option EpubMetadata)
    (write : EpubMetadata -> list EpubChapter -> list Img -> bool) :
  success (run_custom_pipeline stage1 ocr_results processed font pattern ai_service ai_out
             epub_metadata (fun m chs imgs => EpubWriter.generate_epub m chs imgs write)) = true ->
  exists metadata tb raw, stage1 = Some (metadata, tb, raw)
    /\ ChapterDetector.chapters (ChapterDetector.detect_chapters None font pattern ai_service ai_out) = []
    /\ PdfParser.title metadata <> None /\ epub_metadata <> None.
Proof.
  unfold run_custom_pipeline.
  destruct stage1 as [[[metadata tb] raw]|]; [|discriminate].
  destruct (stage_2_content_extraction tb ocr_results processed) as [o [t imgs]].
  destruct (PipelineFacts.stage_4_some_cases t
              (ChapterDetector.detect_chapters None font pattern ai_service ai_out) metadata epub_metadata)
    as [E|(m & Em & Ec & E)]; rewrite E.
  - simpl. discriminate.
  - unfold EpubWriter.generate_epub. simpl.
    destruct (PdfParser.title metadata) eqn:Et; simpl.
    + intros _. exists metadata, tb, raw.
      split; [reflexivity|]. split; [exact Ec|]. split; congruence.
    + discriminate.
Qed.

Lemma convert_cases (enhanced : bool) (threshold : Q) (use_calibre : bool)
    (legacy : ConversionResult) (validation : option PdfParser.Validation)
    (custom : ConversionResult) (calibre : CalibreOutcome) :
  let r := fst (convert_pdf_to_epub enhanced threshold use_calibre legacy validation custom calibre) in
  r = legacy \/ r = convert_with_calibre calibre \/ (r = custom /\ success custom = true)
  \/ r = create_failure_result "Both custom pipeline and Calibre failed".
Proof.
  unfold convert_pdf_to_epub. cbv beta zeta.
  destruct (negb enhanced); [left; reflexivity|].
  destruct (use_calibre || _); [right; left; reflexivity|].
  destruct (negb (success custom) || _) eqn:E.
  - destruct (success (convert_with_calibre calibre)); [right; left; reflexivity|].
    destruct (success custom) eqn:Es; [right; right; left; auto | right; right; right; reflexivity].
  - apply orb_false_iff in E as [E _]. apply negb_false_iff in E.
    right; right; left; auto.
Qed.

End ConversionFacts.

(** * Further properties of the code *)
Module ExtraProperties.
Import Text ChapterDetector QFacts ChapterFacts.
Open Scope string_scope.

(** X1.  [_detect_by_font_analysis] reports at most one chapter per page,
    and each comes from a bold text block of that page, with the block's
    stripped text (longer than two characters) as title, method
    "font_analysis" and level 1. *)
Theorem X1_font_analysis_one_per_page (blocks : list PdfLayout.TextBlock) :
  NoDup (map page_num (Detectors.detect_by_font_analysis blocks))
  /\ Forall (fun c => exists b, In b blocks /\ PdfLayout.page_num b = page_num c
       /\ PdfLayout.is_bold b = true /\ title c = strip (PdfLayout.text b)
       /\ (2 < String.length (title c))%nat
       /\ detection_method c = "font_analysis" /\ level c = 1)
     (Detectors.detect_by_font_analysis blocks).
Proof.
  split.
  - destruct (DetectorFacts.font_analysis_one blocks) as (f & keys & Hk & Hf & E).
    rewrite E. apply DetectorFacts.keyed_flat_map_nodup; assumption.
  - apply Forall_forall. intros c Hc.
    destruct (DetectorFacts.font_analysis_origin blocks c Hc) as (avg & mx & b & Hb & Hp & Hh).
    apply DetectorFacts.font_heading_some in Hh as (_ & Ec & _ & Hbold & Hlen).
    exists b. subst c. simpl. auto 8.
Qed.

(** X2.  Every confidence [_detect_by_font_analysis] reports lies in
    [60, 100]. *)
Theorem X2_font_analysis_confidence (blocks : list PdfLayout.TextBlock) :
  Forall (fun c => (60 <= confidence c <= 100)%Q) (Detectors.detect_by_font_analysis blocks).
Proof.
  apply Forall_forall. intros c Hc.
  destruct (DetectorFacts.font_analysis_origin blocks c Hc) as (avg & mx & b & _ & _ & Hh).
  apply DetectorFacts.font_heading_some in Hh as (_ & -> & Hthr & Hbold & _).
  simpl. rewrite Hbold. apply DetectorFacts.font_confidence_bounds. exact Hthr.
Qed.

(** X3.  [_detect_by_page_patterns] reports chapters on strictly increasing
    pages, each with confidence 60, method "page_pattern" and level 1, taken
    from a block of that page that starts above y = 200 with a font larger
    than 14, whose stripped text is the title. *)
Theorem X3_page_patterns_increasing (blocks : list PdfLayout.TextBlock) :
  StronglySorted (fun a b => page_num a < page_num b) (Detectors.detect_by_page_patterns blocks)
  /\ Forall (fun c => confidence c = 60%Q /\ detection_method c = "page_pattern" /\ level c = 1
       /\ exists b, In b blocks /\ PdfLayout.page_num b = page_num c
          /\ (PdfLayout.y0 b < 200)%Q /\ (14 < PdfLayout.font_size b)%Q
          /\ title c = strip (PdfLayout.text b))
     (Detectors.detect_by_page_patterns blocks).
Proof.
  rewrite DetectorFacts.page_patterns_unfold. split.
  - apply DetectorFacts.keyed_flat_map_sorted; [|apply DetectorFacts.pattern_at_one].
    apply DetectorFacts.sort_Z_sorted, DetectorFacts.page_keys_nodup.
  - apply Forall_forall. intros c Hc.
    apply in_flat_map in Hc as (p & _ & Hc).
    apply DetectorFacts.pattern_at_origin in Hc as (b & Hb & Hp & Hy & Hf & ->).
    simpl. repeat split. exists b. auto.
Qed.

(** X4.  [_detect_by_ai_analysis] reports nothing for a document whose text
    blocks lie on fewer than three distinct pages. *)
Theorem X4_ai_analysis_few_pages (ai_service : bool) (blocks : list PdfLayout.TextBlock)
    (response : option string) :
  (List.length (Detectors.page_keys blocks) < 3)%nat ->
  Detectors.detect_by_ai_analysis ai_service blocks response = [].
Proof.
  intros H. unfold Detectors.detect_by_ai_analysis.
  destruct ai_service; [|reflexivity].
  destruct blocks as [|b0 bs]; [reflexivity|].
  assert (Hl : Nat.ltb (List.length (firstn 20 (Detectors.sort_Z (Detectors.page_keys (b0 :: bs))))) 3
               = true).
  { apply Nat.ltb_lt. rewrite length_firstn, DetectorFacts.sort_Z_length. lia. }
  cbv beta iota zeta delta [negb]. rewrite Hl. reflexivity.
Qed.

Lemma X4_witness :
  (List.length (Detectors.page_keys
     [PdfLayout.mkTextBlock "Introduction" 0 10 100 30 "Times-Bold" 18 true 0 0;
      PdfLayout.mkTextBlock "Some text" 0 40 100 60 "Times" 11 false 1 0]) < 3)%nat
  /\ Detectors.detect_by_ai_analysis true
       [PdfLayout.mkTextBlock "Introduction" 0 10 100 30 "Times-Bold" 18 true 0 0;
        PdfLayout.mkTextBlock "Some text" 0 40 100 60 "Times" 11 false 1 0]
       (Some "Page 1: Introduction") = [].
Proof.
  split; [vm_compute; lia|].
  apply X4_ai_analysis_few_pages. vm_compute. lia.
Defined.

(** X5.  Every chapter [_detect_by_ai_analysis] reports has confidence 70,
    method "ai_analysis" and level 1, lies on a page that has text blocks,
    and has a title longer than two characters. *)
Theorem X5_ai_analysis_chapters (ai_service : bool) (blocks : list PdfLayout.TextBlock)
    (response : option string) :
  Forall (fun c => confidence c = 70%Q /\ detection_method c = "ai_analysis" /\ level c = 1
       /\ (exists b, In b blocks /\ PdfLayout.page_num b = page_num c)
       /\ (2 < String.length (title c))%nat)
    (Detectors.detect_by_ai_analysis ai_service blocks response).
Proof.
  apply Forall_forall. intros c Hc.
  destruct (DetectorFacts.ai_analysis_origin ai_service blocks response c Hc) as (E & Hb & Hl).
  rewrite E. simpl. auto.
Qed.

(** X6.  The chapter structure [detect_chapters] builds from the text
    blocks with its own font, page-pattern and AI detectors lists its
    chapters in non-decreasing page order, and every chapter confidence
    lies in [0, 100]. *)
Theorem X6_detect_chapters_from_blocks_sorted (toc : option (list toc_item))
    (blocks : list PdfLayout.TextBlock) (ai_service : bool) (response : option string) :
  StronglySorted (fun a b => page_num a <= page_num b)
    (chapters (Detectors.detect_chapters_from_blocks toc blocks ai_service response))
  /\ Forall (fun c => (0 <= confidence c <= 100)%Q)
       (chapters (Detectors.detect_chapters_from_blocks toc blocks ai_service response)).
Proof.
  unfold Detectors.detect_chapters_from_blocks.
  destruct (PipelineFacts.full_detectors_conf blocks ai_service response) as (Hf & Hp & Ha).
  split; [apply combine_detection_methods_sorted | apply detect_chapters_conf]; assumption.
Qed.

(** X7.  Every chapter [_extract_bookmarks] reads from a table of contents
    comes from an entry [[lvl, raw, p]] of it: its title is the stripped
    [raw], at least two characters long and not all digits, its page is
    [p - 1], its level [lvl], its method "bookmark", and its confidence
    lies in [75, 95]. *)
Theorem X7_bookmarks_from_toc (toc : list toc_item) :
  Forall (fun c => exists lvl raw p, In (lvl, raw, p) toc
       /\ title c = strip raw /\ page_num c = p - 1 /\ level c = lvl
       /\ detection_method c = "bookmark"
       /\ (2 <= String.length (title c))%nat /\ isdigit (title c) = false
       /\ (75 <= confidence c <= 95)%Q)
    (extract_bookmarks (Some toc)).
Proof.
  simpl. induction toc as [|[[lvl raw] p] r IH]; simpl; [constructor|].
  assert (IH' : Forall (fun c => exists lvl' raw' p', In (lvl', raw', p') ((lvl, raw, p) :: r)
       /\ title c = strip raw' /\ page_num c = p' - 1 /\ level c = lvl'
       /\ detection_method c = "bookmark"
       /\ (2 <= String.length (title c))%nat /\ isdigit (title c) = false
       /\ (75 <= confidence c <= 95)%Q) (bookmarks_of_toc r)).
  { apply (Forall_impl _ (fun c H => match H with ex_intro _ l (ex_intro _ w (ex_intro _ q (conj Hin Rest))) =>
             ex_intro _ l (ex_intro _ w (ex_intro _ q (conj (or_intror Hin) Rest))) end) IH). }
  destruct (String.eqb (strip raw) "") eqn:E1; [exact IH'|].
  destruct (Nat.ltb (String.length (strip raw)) 2 || isdigit (strip raw)) eqn:E2; [exact IH'|].
  constructor; [|exact IH'].
  apply orb_false_iff in E2 as [E2 E3]. apply Nat.ltb_ge in E2.
  exists lvl, raw, p. simpl.
  repeat (split; [first [left; reflexivity | reflexivity | exact E2 | exact E3]|]).
  apply ConversionFacts.bookmark_confidence_range.
Qed.

(** X8.  The text [_escape_html] returns contains none of the characters
    less-than, greater-than, double quote and single quote. *)
Theorem X8_escape_html_no_markup (t : string) :
  Forall (fun c => c <> "<"%char /\ c <> ">"%char /\ c <> "034"%char /\ c <> "'"%char)
    (chars (EpubWriter.escape_html t)).
Proof.
  unfold EpubWriter.escape_html. rewrite TextFacts.chars_of_chars.
  apply Forall_forall. intros c Hc.
  apply in_flat_map in Hc as (d & _ & Hd).
  apply WriterFacts.escape_char_safe in Hd. unfold WriterFacts.html_special in Hd. tauto.
Qed.

(** X9.  [_escape_html] leaves a text unchanged when it contains none of the
    characters ampersand, double quote, less-than, greater-than and single
    quote. *)
Theorem X9_escape_html_plain (t : string) :
  Forall (fun c => ~ In c ["&"; "034"; "<"; ">"; "'"]%char) (chars t) ->
  EpubWriter.escape_html t = t.
Proof.
  intros H. unfold EpubWriter.escape_html.
  rewrite WriterFacts.flat_map_escape_plain; [apply TextFacts.of_chars_chars|].
  apply Forall_forall, H.
Qed.

Lemma X9_witness :
  Forall (fun c => ~ In c ["&"; "034"; "<"; ">"; "'"]%char) (chars "Chapter 1")
  /\ EpubWriter.escape_html "Chapter 1" = "Chapter 1".
Proof.
  assert (H : Forall (fun c => ~ In c ["&"; "034"; "<"; ">"; "'"]%char) (chars "Chapter 1")).
  { repeat constructor; simpl; intuition discriminate. }
  split; [exact H | apply X9_escape_html_plain, H].
Defined.

End ExtraProperties.

(** * Further properties of the pipeline *)
Module ExtraPipeline.
Import Text EpubGenerator Pipeline PipelineFull QFacts ChapterFacts.
Open Scope string_scope.

(** X10.  A run of [_run_custom_pipeline] that writes the EPUB with
    [generate_epub] succeeds only if the PDF analysis returned, the
    chapter detection found no chapter, the PDF has a title, and the EPUB
    metadata could be generated. *)
Theorem X10_custom_success_requires_no_chapters {RawImg Img EpubMetadata : Type}
    (stage1 : option (PdfParser.PDFMetadata * list PdfLayout.TextBlock * list RawImg))
    (ocr_results : option (list string)) (processed : list Img) (ai_service : bool)
    (response : option string) (epub_metadata : option EpubMetadata)
    (write : EpubMetadata -> list EpubChapter -> list Img -> bool) :
  success (run_custom_pipeline_full stage1 ocr_results processed ai_service response epub_metadata write)
    = true ->
  exists metadata blocks raw, stage1 = Some (metadata, blocks, raw)
    /\ ChapterDetector.chapters (Detectors.detect_chapters_from_blocks None blocks ai_service response) = []
    /\ PdfParser.title metadata <> None /\ epub_metadata <> None.
Proof.
  unfold run_custom_pipeline_full.
  destruct stage1 as [[[metadata blocks] raw]|].
  - intros H. apply ConversionFacts.custom_generate_success in H
      as (metadata' & tb & raw' & E & Ec & Ht & Hm).
    injection E as <- _ <-. exists metadata, blocks, raw. auto.
  - simpl. discriminate.
Qed.

Lemma X10_witness :
  success (@run_custom_pipeline_full unit unit unit
             (Some (PdfParser.mkMetadata (Some "Report") None 1 false false 0, [], []))
             None [] false None (Some tt) (fun _ _ _ => true)) = true
  /\ exists metadata blocks (raw : list unit),
       Some (PdfParser.mkMetadata (Some "Report") None 1 false false 0, [], [])
         = Some (metadata, blocks, raw)
       /\ ChapterDetector.chapters (Detectors.detect_chapters_from_blocks None blocks false None) = []
       /\ PdfParser.title metadata <> None /\ Some tt <> None.
Proof.
  assert (H : success (@run_custom_pipeline_full unit unit unit
             (Some (PdfParser.mkMetadata (Some "Report") None 1 false false 0, [], []))
             None [] false None (Some tt) (fun _ _ _ => true)) = true) by (vm_compute; reflexivity).
  split; [exact H | exact (X10_custom_success_requires_no_chapters _ _ _ _ _ _ _ H)].
Defined.

(** X11.  The result of [_run_custom_pipeline] does not depend on the text
    the OCR step returns. *)
Theorem X11_ocr_text_unused {RawImg Img EpubMetadata : Type}
    (stage1 : option (PdfParser.PDFMetadata * list PdfParser.TextBlock * list RawImg))
    (rs rs' : list string) (processed : list Img)
    (font pattern : list ChapterDetector.ChapterBoundary) (ai_service : bool)
    (ai_out : list ChapterDetector.ChapterBoundary) (epub_metadata : option EpubMetadata)
    (generate_epub : option EpubMetadata -> list EpubChapter -> list Img -> bool) :
  run_custom_pipeline stage1 (Some rs) processed font pattern ai_service ai_out epub_metadata generate_epub
  = run_custom_pipeline stage1 (Some rs') processed font pattern ai_service ai_out epub_metadata generate_epub.
Proof.
  unfold run_custom_pipeline. destruct stage1 as [[[metadata tb] raw]|]; [|reflexivity].
  destruct (PipelineFacts.stage_2_ocr_returns tb rs processed) as (o & t & E).
  destruct (PipelineFacts.stage_2_ocr_returns tb rs' processed) as (o' & t' & E').
  rewrite E, E'. reflexivity.
Qed.

(** X12.  Given a chapter structure, [_stage_4_ai_enhancement] returns at
    most one EPUB chapter, and its content is empty. *)
Theorem X12_stage_4_single_empty_chapter {EpubMetadata : Type} (t : string)
    (cs : ChapterDetector.ChapterStructure) (metadata : PdfParser.PDFMetadata)
    (epub_metadata : option EpubMetadata) :
  (List.length (snd (stage_4_ai_enhancement t (Some cs) metadata epub_metadata)) <= 1)%nat
  /\ Forall (fun ch => content ch = "") (snd (stage_4_ai_enhancement t (Some cs) metadata epub_metadata)).
Proof.
  destruct (PipelineFacts.stage_4_some_cases t cs metadata epub_metadata) as [E|(m & _ & _ & E)];
    rewrite E; simpl; split; auto.
Qed.

(** X13.  Whenever [convert_pdf_to_epub] (with the legacy converter, the
    custom pipeline and Calibre) fails, its result is the failure record
    [_create_failure_result] builds: an error message, score 0, method
    "failed" and no completed stages. *)
Theorem X13_conversion_failure_shape (enhanced : bool) (threshold : Q) (use_calibre : bool)
    (legacy : LegacyOutcome) (validation : option PdfParser.Validation)
    {RawImg Img EpubMetadata : Type}
    (stage1 : option (PdfParser.PDFMetadata * list PdfParser.TextBlock * list RawImg))
    (ocr_results : option (list string)) (processed : list Img)
    (font pattern : list ChapterDetector.ChapterBoundary) (ai_service : bool)
    (ai_out : list ChapterDetector.ChapterBoundary) (epub_metadata : option EpubMetadata)
    (generate_epub : option EpubMetadata -> list EpubChapter -> list Img -> bool)
    (calibre : CalibreOutcome) :
  success (fst (convert_pdf_to_epub enhanced threshold use_calibre
     (fallback_to_old_implementation legacy) validation
     (run_custom_pipeline stage1 ocr_results processed font pattern ai_service ai_out
        epub_metadata generate_epub) calibre)) = false ->
  exists msg, fst (convert_pdf_to_epub enhanced threshold use_calibre
     (fallback_to_old_implementation legacy) validation
     (run_custom_pipeline stage1 ocr_results processed font pattern ai_service ai_out
        epub_metadata generate_epub) calibre) = create_failure_result msg.
Proof.
  destruct (ConversionFacts.convert_cases enhanced threshold use_calibre
              (fallback_to_old_implementation legacy) validation
              (run_custom_pipeline stage1 ocr_results processed font pattern ai_service ai_out
                 epub_metadata generate_epub) calibre) as [E|[E|[[E Hs]|E]]];
    cbv zeta in E; rewrite E; intros H.
  - destruct (PipelineFacts.legacy_shape legacy) as [[Hs _]|Hf]; [congruence | exact Hf].
  - destruct (PipelineFacts.calibre_shape calibre) as [[-> _]|[_ Hf]]; [discriminate | exact Hf].
  - congruence.
  - eauto.
Qed.

Lemma X13_witness :
  success (fst (convert_pdf_to_epub true 70 false
     (fallback_to_old_implementation (LegacyRaised "no converter"))
     (Some (PdfParser.mkValidation true false))
     (@run_custom_pipeline unit unit unit None None [] [] [] false [] None (fun _ _ _ => true))
     (CalibreFailed "not installed"))) = false
  /\ exists msg, fst (convert_pdf_to_epub true 70 false
     (fallback_to_old_implementation (LegacyRaised "no converter"))
     (Some (PdfParser.mkValidation true false))
     (@run_custom_pipeline unit unit unit None None [] [] [] false [] None (fun _ _ _ => true))
     (CalibreFailed "not installed")) = create_failure_result msg.
Proof.
  assert (H : success (fst (convert_pdf_to_epub true 70 false
     (fallback_to_old_implementation (LegacyRaised "no converter"))
     (Some (PdfParser.mkValidation true false))
     (@run_custom_pipeline unit unit unit None None [] [] [] false [] None (fun _ _ _ => true))
     (CalibreFailed "not installed"))) = false) by (vm_compute; reflexivity).
  split; [exact H | exact (X13_conversion_failure_shape _ _ _ _ _ _ _ _ _ _ _ _ _ _ _ H)].
Defined.

(** X14.  Whenever [convert_pdf_to_epub] (with the legacy converter, the
    custom pipeline with the chapter detectors, and Calibre) succeeds, its
    result has no error message and a quality score in [50, 100]. *)
Theorem X14_conversion_success_score (enhanced : bool) (threshold : Q) (use_calibre : bool)
    (legacy : LegacyOutcome) (validation : option PdfParser.Validation)
    {RawImg Img EpubMetadata : Type}
    (stage1 : option (PdfParser.PDFMetadata * list PdfLayout.TextBlock * list RawImg))
    (ocr_results : option (list string)) (processed : list Img) (ai_service : bool)
    (response : option string) (epub_metadata : option EpubMetadata)
    (write : EpubMetadata -> list EpubChapter -> list Img -> bool) (calibre : CalibreOutcome) :
  success (fst (convert_pdf_to_epub enhanced threshold use_calibre
     (fallback_to_old_implementation legacy) validation
     (run_custom_pipeline_full stage1 ocr_results processed ai_service response epub_metadata write)
     calibre)) = true ->
  error_message (fst (convert_pdf_to_epub enhanced threshold use_calibre
     (fallback_to_old_implementation legacy) validation
     (run_custom_pipeline_full stage1 ocr_results processed ai_service response epub_metadata write)
     calibre)) = None
  /\ (50 <= quality_score (fst (convert_pdf_to_epub enhanced threshold use_calibre
     (fallback_to_old_implementation legacy) validation
     (run_custom_pipeline_full stage1 ocr_results processed ai_service response epub_metadata write)
     calibre)) <= 100)%Q.
Proof.
  destruct (ConversionFacts.convert_cases enhanced threshold use_calibre
              (fallback_to_old_implementation legacy) validation
              (run_custom_pipeline_full stage1 ocr_results processed ai_service response epub_metadata write)
              calibre) as [E|[E|[[E Hs]|E]]];
    cbv zeta in E; rewrite E; intros H.
  - destruct (PipelineFacts.legacy_shape legacy) as [[_ El]|[msg El]]; rewrite El in *;
      [|discriminate].
    split; [reflexivity|]. split; apply Qle_bool_imp_le; reflexivity.
  - destruct (PipelineFacts.calibre_shape calibre) as [[-> _]|[Hf _]]; [|congruence].
    split; [reflexivity|]. split; apply Qle_bool_imp_le; reflexivity.
  - apply PipelineFacts.run_custom_pipeline_full_success. exact H.
  - discriminate.
Qed.

Lemma X14_witness :
  success (fst (convert_pdf_to_epub true 70 false
     (fallback_to_old_implementation (LegacyRaised "no converter"))
     (Some (PdfParser.mkValidation true false))
     (@run_custom_pipeline_full unit unit unit
        (Some (PdfParser.mkMetadata (Some "Report") (Some "A. Author") 1 false false 0, [], []))
        None [] false None (Some tt) (fun _ _ _ => true))
     (CalibreFailed "not installed"))) = true
  /\ error_message (fst (convert_pdf_to_epub true 70 false
     (fallback_to_old_implementation (LegacyRaised "no converter"))
     (Some (PdfParser.mkValidation true false))
     (@run_custom_pipeline_full unit unit unit
        (Some (PdfParser.mkMetadata (Some "Report") (Some "A. Author") 1 false false 0, [], []))
        None [] false None (Some tt) (fun _ _ _ => true))
     (CalibreFailed "not installed"))) = None
  /\ (50 <= quality_score (fst (convert_pdf_to_epub true 70 false
     (fallback_to_old_implementation (LegacyRaised "no converter"))
     (Some (PdfParser.mkValidation true false))
     (@run_custom_pipeline_full unit unit unit
        (Some (PdfParser.mkMetadata (Some "Report") (Some "A. Author") 1 false false 0, [], []))
        None [] false None (Some tt) (fun _ _ _ => true))
     (CalibreFailed "not installed"))) <= 100)%Q.
Proof.
  assert (H : success (fst (convert_pdf_to_epub true 70 false
     (fallback_to_old_implementation (LegacyRaised "no converter"))
     (Some (PdfParser.mkValidation true false))
     (@run_custom_pipeline_full unit unit unit
        (Some (PdfParser.mkMetadata (Some "Report") (Some "A. Author") 1 false false 0, [], []))
        None [] false None (Some tt) (fun _ _ _ => true))
     (CalibreFailed "not installed"))) = true) by (vm_compute; reflexivity).
  split; [exact H | exact (X14_conversion_success_score _ _ _ _ _ _ _ _ _ _ _ _ _ H)].
Defined.

(** X15.  With [ENHANCED_PDF_CONVERSION] on and a successful Calibre run,
    [convert_pdf_to_epub] always succeeds, whatever the custom pipeline
    does. *)
Theorem X15_calibre_ok_conversion_succeeds (threshold : Q) (use_calibre : bool)
    (legacy : ConversionResult) (validation : option PdfParser.Validation)
    (custom : ConversionResult) :
  success (fst (convert_pdf_to_epub true threshold use_calibre legacy validation custom CalibreOk)) = true.
Proof.
  unfold convert_pdf_to_epub. simpl.
  destruct (use_calibre || _); [reflexivity|].
  destruct (negb (success custom) || _) eqn:E; [reflexivity|].
  simpl. apply orb_false_iff in E as [E _]. apply negb_false_iff in E. exact E.
Qed.

End ExtraPipeline.

(** * Further properties of the Calibre tools and the PDF parser *)
Module ExtraTools.
Import Text CalibreTools.
Open Scope string_scope.

(** X16.  In the options [_build_conversion_command] passes to
    ebook-convert, each option name occurs once, and an option's value is
    the last value the caller gave for it, or else the default one. *)
Theorem X16_conversion_options_override (chinese : bool) (options : list (string * string))
    (k : string) :
  dict_get k (conversion_options chinese options)
  = match dict_get k (rev options) with
    | Some v => Some v
    | None => dict_get k (default_options chinese)
    end
  /\ NoDup (map fst (conversion_options chinese options)).
Proof.
  unfold conversion_options. split.
  - apply CalibreFacts.dict_get_update.
  - apply CalibreFacts.dict_update_nodup, CalibreFacts.default_options_nodup.
Qed.

(** X17.  When Calibre succeeds and its output has been analysed,
    [compare_conversion_quality] rates the images 90 exactly when some
    output line mentions "image" or "extracting" (50 otherwise), the
    metadata 90 exactly when some line mentions "metadata" (60 otherwise),
    and its overall score lies in [68.75, 86.25]. *)
Theorem X17_calibre_quality_follows_output (custom_size file_size : Z) (stdout : string) :
  image_quality (compare_conversion_quality custom_size true file_size
                   (Some (analyze_calibre_output stdout)))
  = (if existsb CalibreFacts.mentions_image (PyStr.split_char "010"%char (chars stdout))
     then 90 else 50)%Q
  /\ metadata_completeness (compare_conversion_quality custom_size true file_size
                              (Some (analyze_calibre_output stdout)))
     = (if existsb CalibreFacts.mentions_metadata (PyStr.split_char "010"%char (chars stdout))
        then 90 else 60)%Q
  /\ (275 # 4 <= overall_score (compare_conversion_quality custom_size true file_size
                                  (Some (analyze_calibre_output stdout))) <= 345 # 4)%Q.
Proof.
  unfold compare_conversion_quality. cbv beta iota zeta delta [negb].
  assert (HI : Z.ltb 0 (images_extracted (analyze_calibre_output stdout))
               = existsb CalibreFacts.mentions_image (PyStr.split_char "010"%char (chars stdout))).
  { pose proof (CalibreFacts.analyze_images (PyStr.split_char "010"%char (chars stdout))
                  (mkIndicators 0 0 false false 0) (Z.le_refl 0)) as [H1 H2].
    unfold analyze_calibre_output. simpl images_extracted in H1, H2.
    destruct (Z.ltb_spec 0 (images_extracted (fold_left analyze_line
                (PyStr.split_char "010"%char (chars stdout)) (mkIndicators 0 0 false false 0)))) as [Hlt|Hge].
    - apply H1 in Hlt as [Hlt|Hlt]; [lia | symmetry; exact Hlt].
    - destruct (existsb CalibreFacts.mentions_image _) eqn:E; [|reflexivity].
      assert (Hc : 0 < images_extracted (fold_left analyze_line
                (PyStr.split_char "010"%char (chars stdout)) (mkIndicators 0 0 false false 0)))
        by (apply H2; right; reflexivity).
      lia. }
  assert (HM : metadata_found (analyze_calibre_output stdout)
               = existsb CalibreFacts.mentions_metadata (PyStr.split_char "010"%char (chars stdout))).
  { unfold analyze_calibre_output. rewrite CalibreFacts.analyze_metadata. reflexivity. }
  rewrite HI, HM. simpl.
  destruct (existsb CalibreFacts.mentions_image _), (existsb CalibreFacts.mentions_metadata _);
    (split; [reflexivity|]); (split; [reflexivity|]);
    split; apply Qle_bool_imp_le; vm_compute; reflexivity.
Qed.

(** X18.  The [i]-th text block [_extract_text_blocks] returns for a page
    has block id [i], that page's number, and a non-empty text with no
    leading or trailing white space. *)
Theorem X18_extract_text_blocks_numbered (page_dict : option (option (list PdfLayout.Block)))
    (page_num : Z) (i : nat) (b : PdfLayout.TextBlock) :
  nth_error (PdfLayout.extract_text_blocks page_dict page_num) i = Some b ->
  PdfLayout.block_id b = Z.of_nat i /\ PdfLayout.page_num b = page_num
  /\ PdfLayout.text b <> "" /\ strip (PdfLayout.text b) = PdfLayout.text b.
Proof.
  unfold PdfLayout.extract_text_blocks. destruct page_dict as [blocks|].
  - apply LayoutFacts.extract_go_numbered. intros j c Hc. destruct j; discriminate.
  - destruct i; discriminate.
Qed.

Lemma X18_witness :
  nth_error (PdfLayout.extract_text_blocks
    (Some (Some [PdfLayout.mkRawBlock (Some 0) (Some [PdfLayout.mkLine (Some
      [PdfLayout.mkSpan (Some "   ") (Some "Times") (Some 11%Q) (Some [0; 0; 5; 5]%Q);
       PdfLayout.mkSpan (Some " Introduction ") (Some "Times-Bold") (Some 18%Q) (Some [72; 80; 300; 100]%Q)])])]))
    4) 0
  = Some (PdfLayout.mkTextBlock "Introduction" 72 80 300 100 "Times-Bold" 18 true 4 0)
  /\ PdfLayout.block_id (PdfLayout.mkTextBlock "Introduction" 72 80 300 100 "Times-Bold" 18 true 4 0)
     = Z.of_nat 0
  /\ PdfLayout.page_num (PdfLayout.mkTextBlock "Introduction" 72 80 300 100 "Times-Bold" 18 true 4 0) = 4
  /\ PdfLayout.text (PdfLayout.mkTextBlock "Introduction" 72 80 300 100 "Times-Bold" 18 true 4 0) <> ""
  /\ strip (PdfLayout.text (PdfLayout.mkTextBlock "Introduction" 72 80 300 100 "Times-Bold" 18 true 4 0))
     = PdfLayout.text (PdfLayout.mkTextBlock "Introduction" 72 80 300 100 "Times-Bold" 18 true 4 0).
Proof.
  assert (H : nth_error (PdfLayout.extract_text_blocks
    (Some (Some [PdfLayout.mkRawBlock (Some 0) (Some [PdfLayout.mkLine (Some
      [PdfLayout.mkSpan (Some "   ") (Some "Times") (Some 11%Q) (Some [0; 0; 5; 5]%Q);
       PdfLayout.mkSpan (Some " Introduction ") (Some "Times-Bold") (Some 18%Q) (Some [72; 80; 300; 100]%Q)])])]))
    4) 0
    = Some (PdfLayout.mkTextBlock "Introduction" 72 80 300 100 "Times-Bold" 18 true 4 0))
    by (vm_compute; reflexivity).
  split; [exact H | exact (X18_extract_text_blocks_numbered _ _ _ _ H)].
Defined.

End ExtraTools.

(** ** Word-set similarity *)
Module SimilarityFacts.
Import Text.
Open Scope string_scope.

Lemma mem_false (x : string) (l : list string) : ~ In x l -> mem x l = false.
Proof.
  intros H. unfold mem. destruct (existsb (String.eqb x) l) eqn:E; [|reflexivity].
  apply CalibreFacts.existsb_String_eqb in E. contradiction.
Qed.

Lemma to_set_nodup (xs : list string) : NoDup (to_set xs).
Proof.
  induction xs as [|x r IH]; simpl; [constructor|].
  destruct (existsb (String.eqb x) (to_set r)) eqn:E; [exact IH|].
  constructor; [|exact IH].
  intros H. apply CalibreFacts.existsb_String_eqb in H. congruence.
Qed.

Lemma filter_length_split (f : string -> bool) (l : list string) :
  List.length l = (List.length (filter f l) + List.length (filter (fun y => negb (f y)) l))%nat.
Proof.
  induction l as [|y r IH]; simpl; [reflexivity|].
  destruct (f y); simpl; lia.
Qed.

Lemma filter_false_length (l : list string) :
  List.length (filter (fun _ => false) l) = 0%nat.
Proof. induction l; simpl; auto. Qed.

Lemma filter_or_eqb_length (f : string -> bool) (x : string) (b : list string) :
  f x = false -> NoDup b ->
  List.length (filter (fun y => String.eqb y x || f y) b)
  = (List.length (filter f b) + (if mem x b then 1 else 0))%nat.
Proof.
  intros Hfx Hb. induction Hb as [|y b' Hy Hb' IH]; simpl; [reflexivity|].
  destruct (String.eqb_spec y x) as [->|Hne].
  - rewrite Hfx, String.eqb_refl. simpl. rewrite IH, (mem_false x b' Hy). lia.
  - assert (Exy : String.eqb x y = false) by (apply String.eqb_neq; congruence).
    rewrite Exy. simpl. destruct (f y); simpl; rewrite IH; lia.
Qed.

Lemma inter_size_sym (a b : list string) :
  NoDup a -> NoDup b -> inter_size a b = inter_size b a.
Proof.
  intros Ha Hb. unfold inter_size. induction Ha as [|x a' Hx Ha' IH].
  - simpl. clear Hb. induction b as [|z r IHb]; simpl; auto.
  - transitivity ((if mem x b then 1 else 0) + List.length (filter (fun y => mem y b) a'))%nat.
    { simpl. destruct (mem x b); reflexivity. }
    transitivity (List.length (filter (fun y => String.eqb y x || mem y a') b)); [|reflexivity].
    rewrite (filter_or_eqb_length (fun y => mem y a') x b (mem_false x a' Hx) Hb).
    rewrite IH. lia.
Qed.

Lemma union_size_sym (a b : list string) :
  NoDup a -> NoDup b -> union_size a b = union_size b a.
Proof.
  intros Ha Hb. unfold union_size.
  pose proof (filter_length_split (fun x => mem x a) b) as Eb.
  pose proof (filter_length_split (fun x => mem x b) a) as Ea.
  pose proof (inter_size_sym a b Ha Hb) as Ei. unfold inter_size in Ei.
  lia.
Qed.

Lemma similarity_sym (words1 words2 : list string) (threshold : Q) :
  NoDup words1 -> NoDup words2 ->
  match words1, words2 with
  | [], _ | _, [] => false
  | _, _ =>
      let similarity :=
        (inject_Z (Z.of_nat (inter_size words1 words2))
         / inject_Z (Z.of_nat (union_size words1 words2)))%Q in
      Qle_bool threshold similarity
  end
  = match words2, words1 with
    | [], _ | _, [] => false
    | _, _ =>
        let similarity :=
          (inject_Z (Z.of_nat (inter_size words2 words1))
           / inject_Z (Z.of_nat (union_size words2 words1)))%Q in
        Qle_bool threshold similarity
    end.
Proof.
  intros H1 H2.
  destruct words1 as [|x xs]; destruct words2 as [|y ys]; try reflexivity.
  rewrite (inter_size_sym (x :: xs) (y :: ys)), (union_size_sym (x :: xs) (y :: ys)) by assumption.
  reflexivity.
Qed.

End SimilarityFacts.

(** * Symmetry of title similarity *)
Module ExtraSimilarity.
Import Text ChapterDetector.
Open Scope string_scope.

(** X19.  [_titles_similar] is symmetric: comparing [title1] with [title2]
    gives the same answer as comparing [title2] with [title1], for every
    threshold. *)
Theorem X19_titles_similar_symmetric (title1 title2 : string) (threshold : Q) :
  titles_similar title1 title2 threshold = titles_similar title2 title1 threshold.
Proof.
  unfold titles_similar.
  rewrite (String.eqb_sym (strip (lower title1))).
  destruct (String.eqb (strip (lower title2)) (strip (lower title1))); [reflexivity|].
  apply SimilarityFacts.similarity_sym; apply SimilarityFacts.to_set_nodup.
Qed.

End ExtraSimilarity.

(** ** The quality score of successful runs *)
Module QualityRuns.
Import Text EpubGenerator Pipeline PipelineFull QFacts ChapterFacts QualityFacts SpecQuality.
Open Scope string_scope.

(** The score a successful run of [_run_custom_pipeline] reports is
    [_calculate_quality_score] of the stage-1 metadata, the detected
    structure and the number of images stage 2 kept. *)
Lemma run_custom_pipeline_score {RawImg Img EpubMetadata : Type}
    (metadata : PdfParser.PDFMetadata) (tb : list PdfParser.TextBlock) (raw : list RawImg)
    (ocr_results : option (list string)) (processed : list Img)
    (font pattern : list ChapterDetector.ChapterBoundary) (ai_service : bool)
    (ai_out : list ChapterDetector.ChapterBoundary) (epub_metadata : option EpubMetadata)
    (generate_epub : option EpubMetadata -> list EpubChapter -> list Img -> bool) :
  success (run_custom_pipeline (Some (metadata, tb, raw)) ocr_results processed font pattern
             ai_service ai_out epub_metadata generate_epub) = true ->
  quality_score (run_custom_pipeline (Some (metadata, tb, raw)) ocr_results processed font pattern
                   ai_service ai_out epub_metadata generate_epub)
  = calculate_quality_score metadata
      (Some (ChapterDetector.detect_chapters None font pattern ai_service ai_out))
      (List.length (snd (snd (stage_2_content_extraction tb ocr_results processed)))).
Proof.
  unfold run_custom_pipeline.
  destruct (stage_2_content_extraction tb ocr_results processed) as [o [t imgs]].
  destruct (stage_4_ai_enhancement t _ metadata epub_metadata) as [em chs].
  destruct (generate_epub em chs imgs); simpl; [reflexivity | discriminate].
Qed.

Lemma detect_chapters_no_chapters_confidence (toc : option (list ChapterDetector.toc_item))
    (font pattern : list ChapterDetector.ChapterBoundary) (ai_service : bool)
    (ai_out : list ChapterDetector.ChapterBoundary) :
  ChapterDetector.chapters (ChapterDetector.detect_chapters toc font pattern ai_service ai_out) = [] ->
  ChapterDetector.total_confidence (ChapterDetector.detect_chapters toc font pattern ai_service ai_out)
  = 0%Q.
Proof.
  unfold ChapterDetector.detect_chapters. simpl. intros ->. reflexivity.
Qed.

(** With no chapter-structure confidence the additive formula never goes
    above 100, so the final [min(100.0, score)] leaves it unchanged. *)
Lemma quality_score_no_confidence (metadata : PdfParser.PDFMetadata)
    (cs : ChapterDetector.ChapterStructure) (n : nat) :
  ChapterDetector.total_confidence cs = 0%Q ->
  (calculate_quality_score metadata (Some cs) n
   == claimed_quality_score
        (truthy (PdfParser.title metadata) && truthy (PdfParser.author metadata))
        (PdfParser.has_bookmarks metadata) (ChapterDetector.total_confidence cs)
        n (PdfParser.scan_probability metadata))%Q.
Proof.
  intros Hc. rewrite quality_score_uncapped. unfold claimed_quality_score.
  rewrite Hc, (Z.mul_comm 2).
  assert (Himg : (0 <= inject_Z (Z.min (Z.of_nat n * 2) 15) <= 15)%Q).
  { change 0%Q with (inject_Z 0). change 15%Q with (inject_Z 15).
    rewrite <- !Zle_Qle. lia. }
  destruct n as [|k];
    [change (inject_Z (Z.min (Z.of_nat 0 * 2) 15)) with 0%Q|];
    destruct (truthy _ && truthy _), (PdfParser.has_bookmarks metadata);
    destruct (Qlt_bool (PdfParser.scan_probability metadata) (3 # 10));
    try destruct (Qlt_bool (PdfParser.scan_probability metadata) (7 # 10));
    cbv beta iota zeta; unfold ChapterDetector.py_min;
    match goal with |- context [Qlt_bool ?a ?b] => case_qlt a b end; lra.
Qed.

(** C2.  In every successful run of the custom pipeline (stage 1 returned,
    stage 3 ran the detectors on the stage-1 text blocks, stage 5 wrote
    the EPUB), the quality score equals 50 + 10 [title and author known]
    + 15 [bookmarks] + 0.2 x the confidence of the detected chapter
    structure + min(2 x processed images, 15) + 10 [scan probability
    below 0.3] or 5 [below 0.7], and it lies in [0, 100]; for every PDF
    metadata, text blocks, AI answer and image count the score the
    pipeline computes lies in [0, 100]. *)
Theorem C2_successful_run_quality_score {RawImg Img EpubMetadata : Type}
    (stage1 : option (PdfParser.PDFMetadata * list PdfLayout.TextBlock * list RawImg))
    (ocr_results : option (list string)) (processed : list Img) (ai_service : bool)
    (response : option string) (epub_metadata : option EpubMetadata)
    (write : EpubMetadata -> list EpubChapter -> list Img -> bool) :
  (success (run_custom_pipeline_full stage1 ocr_results processed ai_service response
              epub_metadata write) = true ->
   exists metadata blocks raw, stage1 = Some (metadata, blocks, raw)
   /\ (quality_score (run_custom_pipeline_full stage1 ocr_results processed ai_service response
                        epub_metadata write)
       == claimed_quality_score
            (truthy (PdfParser.title metadata) && truthy (PdfParser.author metadata))
            (PdfParser.has_bookmarks metadata)
            (ChapterDetector.total_confidence
               (Detectors.detect_chapters_from_blocks None blocks ai_service response))
            (List.length (snd (snd (stage_2_content_extraction (map PdfLayout.to_block blocks)
                                       ocr_results processed))))
            (PdfParser.scan_probability metadata))%Q
   /\ (0 <= quality_score (run_custom_pipeline_full stage1 ocr_results processed ai_service
                            response epub_metadata write) <= 100)%Q)
  /\ (forall metadata blocks n,
        (0 <= calculate_quality_score metadata
                (Some (Detectors.detect_chapters_from_blocks None blocks ai_service response)) n
         <= 100)%Q).
Proof.
  assert (Hrange : forall metadata blocks n,
            (50 <= calculate_quality_score metadata
                     (Some (Detectors.detect_chapters_from_blocks None blocks ai_service response)) n
             <= 100)%Q).
  { intros metadata blocks n. apply quality_score_range. intros c Hc. injection Hc as <-.
    unfold Detectors.detect_chapters_from_blocks.
    destruct (PipelineFacts.full_detectors_conf blocks ai_service response) as (Hf & Hp & Ha).
    apply detect_chapters_total_confidence; assumption. }
  split.
  - intros H. pose proof H as Hs. unfold run_custom_pipeline_full in *.
    destruct stage1 as [[[metadata blocks] raw]|]; [|simpl in H; discriminate H].
    apply ConversionFacts.custom_generate_success in Hs as (m' & tb & raw' & E & Ec & _ & _).
    exists metadata, blocks, raw. split; [reflexivity|].
    rewrite (run_custom_pipeline_score _ _ _ _ _ _ _ _ _ _ _ H).
    split.
    + apply quality_score_no_confidence.
      apply detect_chapters_no_chapters_confidence. exact Ec.
    + specialize (Hrange metadata blocks
                    (List.length (snd (snd (stage_2_content_extraction (map PdfLayout.to_block blocks)
                                              ocr_results processed))))).
      unfold Detectors.detect_chapters_from_blocks in Hrange. lra.
  - intros metadata blocks n. specialize (Hrange metadata blocks n). lra.
Qed.

Lemma C2_witness :
  exists metadata blocks (raw : list unit),
    Some (PdfParser.mkMetadata (Some "Report") (Some "A. Author") 1 false true (1 # 10), [], [])
      = Some (metadata, blocks, raw)
    /\ (quality_score (@run_custom_pipeline_full unit unit unit
           (Some (PdfParser.mkMetadata (Some "Report") (Some "A. Author") 1 false true (1 # 10), [], []))
           (Some []) [tt; tt; tt] false None (Some tt) (fun _ _ _ => true))
        == claimed_quality_score
             (truthy (PdfParser.title metadata) && truthy (PdfParser.author metadata))
             (PdfParser.has_bookmarks metadata)
             (ChapterDetector.total_confidence
                (Detectors.detect_chapters_from_blocks None blocks false None))
             (List.length (snd (snd (stage_2_content_extraction (map PdfLayout.to_block blocks)
                                        (Some []) [tt; tt; tt]))))
             (PdfParser.scan_probability metadata))%Q
    /\ (0 <= quality_score (@run_custom_pipeline_full unit unit unit
           (Some (PdfParser.mkMetadata (Some "Report") (Some "A. Author") 1 false true (1 # 10), [], []))
           (Some []) [tt; tt; tt] false None (Some tt) (fun _ _ _ => true)) <= 100)%Q.
Proof.
  apply (proj1 (C2_successful_run_quality_score
                  (Some (PdfParser.mkMetadata (Some "Report") (Some "A. Author") 1 false true (1 # 10),
                         [], []))
                  (Some []) [tt; tt; tt] false None (Some tt) (fun _ _ _ => true))).
  vm_compute. reflexivity.
Defined.

End QualityRuns.
